(** * House price predictor: form controller and prediction client

    A shallow embedding of the single-page form
    ([pages/HousePricePredictor.tsx]) and of its HTTP client
    ([src/lib/api.ts]), with the properties of the specification proved
    over it.

    - [JS]   : the fragment of the JavaScript run-time the code relies on
               (strings, IEEE-754 numbers, [Number], [Math.floor], errors);
    - [Api]  : [checkHealth], [validateAndConvertForm], [predict];
    - [Page] : the component's state, [validateField], [validateForm], the
               event handlers and the transition system they induce. *)

From Stdlib Require Import ZArith QArith Qround Bool List String Ascii Lia.
From Stdlib Require Import Floats.SpecFloat.
From Stdlib Require Import Numbers.DecimalString.
Import ListNotations.

(* ================================================================== *)
(** * The JavaScript fragment *)
(* ================================================================== *)

Module JS.

Local Open Scope Z_scope.

(** ** Strings

    A JavaScript string is a sequence of UTF-16 code units.  The model keeps
    the code units below 256, one [ascii] each; this covers every character
    that has a meaning for the code (digits, signs, letters of the numeric
    grammar and the white space below U+0100). *)

Definition code (c : ascii) : Z := Z.of_N (N_of_ascii c).

(** [WhiteSpace] and [LineTerminator] code units: TAB, LF, VT, FF, CR, SP
    and NBSP.  Both [String.prototype.trim] and the numeric grammar
    ([StrWhiteSpaceChar]) strip exactly these. *)
Definition is_whitespace (c : ascii) : bool :=
  let n := code c in
  ((9 <=? n) && (n <=? 13)) || (n =? 32) || (n =? 160).

Fixpoint trimStart (s : string) : string :=
  match s with
  | EmptyString => EmptyString
  | String c r => if is_whitespace c then trimStart r else s
  end.

Fixpoint trimEnd (s : string) : string :=
  match s with
  | EmptyString => EmptyString
  | String c r =>
      match trimEnd r with
      | EmptyString => if is_whitespace c then EmptyString else String c EmptyString
      | r' => String c r'
      end
  end.

(** [value.trim()] *)
Definition trim (s : string) : string := trimEnd (trimStart s).

(** ** Numbers

    A JavaScript number is an IEEE-754 binary64 value: the Standard
    Library's [spec_float] at precision 53 and maximal exponent 1024. *)

Definition number : Type := spec_float.

Definition prec : Z := 53.
Definition emax : Z := 1024.

Definition NaN : number := S754_nan.

(** The exact integer [n] as a number.  No rounding takes place: a mantissa
    shorter than 53 bits is shifted to its canonical exponent, a longer one
    is kept as it is. *)
Definition of_pos (s : bool) (p : positive) : number :=
  let '(m, e) := shl_align p 0 (fexp prec emax (Zpos (digits2_pos p))) in
  S754_finite s m e.

Definition of_Z (n : Z) : number :=
  match n with
  | Z0 => S754_zero false
  | Zpos p => of_pos false p
  | Zneg p => of_pos true p
  end.

(** The mathematical value of a finite number, as a rational. *)
Definition pow2 (e : Z) : positive := Z.to_pos (2 ^ e).

Definition finite_value (s : bool) (m : positive) (e : Z) : Q :=
  if 0 <=? e then inject_Z (cond_Zopp s (Zpos m) * 2 ^ e)
  else Qmake (cond_Zopp s (Zpos m)) (pow2 (- e)).

Definition value (x : number) : option Q :=
  match x with
  | S754_zero _ => Some 0%Q
  | S754_finite s m e => Some (finite_value s m e)
  | S754_infinity _ | S754_nan => None
  end.

(** [isNaN(x)] on a number. *)
Definition isNaN (x : number) : bool :=
  match x with S754_nan => true | _ => false end.

(** Comparison of two numbers: undefined as soon as one is NaN, by
    mathematical value otherwise (the two zeros are equal). *)
Definition compare (x y : number) : option comparison :=
  match x, y with
  | S754_nan, _ | _, S754_nan => None
  | S754_infinity sx, S754_infinity sy =>
      Some (match sx, sy with
            | true, false => Lt
            | false, true => Gt
            | _, _ => Eq
            end)
  | S754_infinity sx, _ => Some (if sx then Lt else Gt)
  | _, S754_infinity sy => Some (if sy then Gt else Lt)
  | _, _ =>
      match value x, value y with
      | Some vx, Some vy => Some (Qcompare vx vy)
      | _, _ => None
      end
  end.

(** [x < y] and [x > y]; both are false when an operand is NaN. *)
Definition lt (x y : number) : bool :=
  match compare x y with Some Lt => true | _ => false end.

Definition gt (x y : number) : bool := lt y x.

(** [Number.isInteger(x)]: finite and without fractional part. *)
Definition Number_isInteger (x : number) : bool :=
  match x with
  | S754_zero _ => true
  | S754_finite _ m e =>
      if 0 <=? e then true else (Zpos m mod 2 ^ (- e) =? 0)
  | S754_infinity _ | S754_nan => false
  end.

(** [Math.floor(x)]: NaN, the infinities, the zeros and the integral
    numbers are returned unchanged; otherwise the greatest integer below
    [x], which is [+0] for [0 < x < 1]. *)
Definition Math_floor (x : number) : number :=
  match x with
  | S754_finite s m e =>
      if 0 <=? e then x
      else
        let d := 2 ^ (- e) in
        if Zpos m mod d =? 0 then x
        else
          let q := Zpos m / d in
          of_Z (if s then - (q + 1) else q)
  | _ => x
  end.

(** ** [Number(string)]

    The numeric grammar of strings ([StrNumericLiteral]): an optionally
    signed decimal literal or [Infinity], or an unsigned hexadecimal, octal
    or binary integer.  A literal is first read exactly, then rounded to
    the nearest number, ties to even. *)

Inductive literal : Type :=
  | LitInfinity (neg : bool)
  | LitDecimal (neg : bool) (mantissa : Z) (exp10 : Z).

Definition digit_of (c : ascii) : option Z :=
  let n := code c in
  if (48 <=? n) && (n <=? 57) then Some (n - 48)
  else if (97 <=? n) && (n <=? 102) then Some (n - 87)
  else if (65 <=? n) && (n <=? 70) then Some (n - 55)
  else None.

Definition digit_in (radix : Z) (c : ascii) : option Z :=
  match digit_of c with
  | Some d => if d <? radix then Some d else None
  | None => None
  end.

(** Reads the longest prefix of digits of [s]: the value accumulated on top
    of [acc], the number of digits read on top of [count], and the rest. *)
Fixpoint read_digits (radix : Z) (s : string) (acc : Z) (count : nat)
  : Z * nat * string :=
  match s with
  | EmptyString => (acc, count, s)
  | String c r =>
      match digit_in radix c with
      | Some d => read_digits radix r (acc * radix + d) (S count)
      | None => (acc, count, s)
      end
  end.

Definition is_char (c : ascii) (a b : string) : bool :=
  (String c EmptyString =? a)%string || (String c EmptyString =? b)%string.

(** [ExponentPart_opt]: nothing, or [e]/[E] followed by an optionally
    signed, non-empty run of digits that ends the string. *)
Definition parse_exponent (s : string) : option Z :=
  match s with
  | EmptyString => Some 0
  | String c r =>
      if is_char c "e" "E" then
        let '(neg, ds) :=
          match r with
          | String "+" r' => (false, r')
          | String "-" r' => (true, r')
          | _ => (false, r)
          end in
        match read_digits 10 ds 0 0 with
        | (_, O, _) => None
        | (n, _, EmptyString) => Some (if neg then - n else n)
        | _ => None
        end
      else None
  end.

(** [StrUnsignedDecimalLiteral] *)
Definition parse_unsigned_decimal (neg : bool) (s : string) : option literal :=
  if (s =? "Infinity")%string then Some (LitInfinity neg)
  else
    let '(ip, nip, r1) := read_digits 10 s 0 0 in
    let '(m, nfp, r2) :=
      match r1 with
      | String "." r => read_digits 10 r ip 0
      | _ => (ip, O, r1)
      end in
    match (nip + nfp)%nat with
    | O => None
    | _ =>
        match parse_exponent r2 with
        | Some e => Some (LitDecimal neg m (e - Z.of_nat nfp))
        | None => None
        end
    end.

(** [NonDecimalIntegerLiteral], after its two-character prefix. *)
Definition parse_non_decimal (radix : Z) (s : string) : option literal :=
  match read_digits radix s 0 0 with
  | (_, O, _) => None
  | (n, _, EmptyString) => Some (LitDecimal false n 0)
  | _ => None
  end.

Definition parse_decimal (s : string) : option literal :=
  match s with
  | String "+" r => parse_unsigned_decimal false r
  | String "-" r => parse_unsigned_decimal true r
  | _ => parse_unsigned_decimal false s
  end.

(** [StrNumericLiteral] *)
Definition parse_literal (s : string) : option literal :=
  match s with
  | String "0" (String c r) =>
      if is_char c "x" "X" then parse_non_decimal 16 r
      else if is_char c "o" "O" then parse_non_decimal 8 r
      else if is_char c "b" "B" then parse_non_decimal 2 r
      else parse_decimal s
  | _ => parse_decimal s
  end.

(** The number nearest to the literal's exact value. *)
Definition round_literal (l : literal) : number :=
  match l with
  | LitInfinity s => S754_infinity s
  | LitDecimal s (Zpos p) e =>
      if 0 <=? e then binary_round prec emax s (p * Z.to_pos (10 ^ e)) 0
      else
        let '(q, e', loc) :=
          SFdiv_core_binary prec emax (Zpos p) 0 (10 ^ (- e)) 0 in
        binary_round_aux prec emax s q e' loc
  | LitDecimal s _ _ => S754_zero s
  end.

(** [StrNumericLiteral] as a number, when the string is one. *)
Definition StrNumericLiteral (s : string) : option number :=
  option_map round_literal (parse_literal s).

(** [Number(s)] for a string [s] ([StringToNumber]): white space is
    stripped; the empty string is [+0]; a numeric literal is its value;
    anything else is NaN. *)
Definition Number (s : string) : number :=
  match trim s with
  | EmptyString => S754_zero false
  | t =>
      match StrNumericLiteral t with
      | Some x => x
      | None => NaN
      end
  end.

(** ** Thrown values and completions

    A thrown value is an [Error] instance, with its [name] and [message],
    or something else ([error instanceof Error] is false). *)

Inductive thrown : Type :=
  | ErrorObj (name message : string)
  | NonError.

(** [new Error(message)] *)
Definition new_Error (message : string) : thrown := ErrorObj "Error" message.

(** The outcome of evaluating code that may throw, and of awaiting a
    promise that may reject. *)
Inductive completion (A : Type) : Type :=
  | Return (a : A)
  | Throw (t : thrown).

Arguments Return {A} a.
Arguments Throw {A} t.

(** ** JSON values, as [response.json()] delivers them *)

#[warnings="-register-all"]
Inductive json : Type :=
  | JNull
  | JBool (b : bool)
  | JNumber (n : number)
  | JString (s : string)
  | JArray (items : list json)
  | JObject (members : list (string * json)).

(** The members of an object are kept in the order of the text; a repeated
    key denotes its last occurrence. *)
Fixpoint lookup (key : string) (members : list (string * json)) : option json :=
  match members with
  | [] => None
  | (k, v) :: rest =>
      match lookup key rest with
      | Some v' => Some v'
      | None => if (k =? key)%string then Some v else None
      end
  end.

(** [data.key] for one of the keys the code reads ([price], [currency],
    [status]), which only an object can have: [undefined] ([None]) on every
    other value, except that reading a property of [null] throws a
    [TypeError] (the message is the engine's; V8's is used). *)
Definition get (data : json) (key : string) : completion (option json) :=
  match data with
  | JNull =>
      Throw (ErrorObj "TypeError"
               ("Cannot read properties of null (reading '" ++ key ++ "')"))
  | JObject members => Return (lookup key members)
  | _ => Return None
  end.

(** A string in a condition: true unless empty. *)
Definition truthy (s : string) : bool :=
  match s with EmptyString => false | _ => true end.

(** The decimal digits of a non-negative integer, as a template literal
    prints it. *)
Definition digits (n : N) : string := NilZero.string_of_uint (N.to_uint n).

End JS.

(* ================================================================== *)
(** * The form's data ([HouseFormData], [FormErrors]) *)
(* ================================================================== *)

(** [keyof HouseFormData] *)
Module Key.

Inductive t : Type := bedrooms | bathrooms | living_area | condition | schools.

Definition eq_dec (a b : t) : {a = b} + {a <> b}.
Proof. decide equality. Defined.

End Key.

Module HouseFormData.

Record t : Type := mk {
  bedrooms : string;
  bathrooms : string;
  living_area : string;
  condition : string;
  schools : string
}.

(** [formData[name]] *)
Definition get (name : Key.t) (d : t) : string :=
  match name with
  | Key.bedrooms => bedrooms d
  | Key.bathrooms => bathrooms d
  | Key.living_area => living_area d
  | Key.condition => condition d
  | Key.schools => schools d
  end.

(** [{ ...prev, [name]: value }] *)
Definition set (name : Key.t) (value : string) (d : t) : t :=
  match name with
  | Key.bedrooms => mk value (bathrooms d) (living_area d) (condition d) (schools d)
  | Key.bathrooms => mk (bedrooms d) value (living_area d) (condition d) (schools d)
  | Key.living_area => mk (bedrooms d) (bathrooms d) value (condition d) (schools d)
  | Key.condition => mk (bedrooms d) (bathrooms d) (living_area d) value (schools d)
  | Key.schools => mk (bedrooms d) (bathrooms d) (living_area d) (condition d) value
  end.

(** [Object.entries(formData)]: the five properties in the order of their
    creation. *)
Definition entries (d : t) : list (Key.t * string) :=
  [ (Key.bedrooms, bedrooms d); (Key.bathrooms, bathrooms d);
    (Key.living_area, living_area d); (Key.condition, condition d);
    (Key.schools, schools d) ].

End HouseFormData.

Module FormErrors.

(** Every property is optional: [None] is an absent (or [undefined])
    message. *)
Record t : Type := mk {
  bedrooms : option string;
  bathrooms : option string;
  living_area : option string;
  condition : option string;
  schools : option string
}.

(** [{}] *)
Definition empty : t := mk None None None None None.

(** [errors[name]] *)
Definition get (name : Key.t) (e : t) : option string :=
  match name with
  | Key.bedrooms => bedrooms e
  | Key.bathrooms => bathrooms e
  | Key.living_area => living_area e
  | Key.condition => condition e
  | Key.schools => schools e
  end.

(** [errors[name] = v], and [{ ...prev, [name]: v }] *)
Definition set (name : Key.t) (v : option string) (e : t) : t :=
  match name with
  | Key.bedrooms => mk v (bathrooms e) (living_area e) (condition e) (schools e)
  | Key.bathrooms => mk (bedrooms e) v (living_area e) (condition e) (schools e)
  | Key.living_area => mk (bedrooms e) (bathrooms e) v (condition e) (schools e)
  | Key.condition => mk (bedrooms e) (bathrooms e) (living_area e) v (schools e)
  | Key.schools => mk (bedrooms e) (bathrooms e) (living_area e) (condition e) v
  end.

End FormErrors.

(* ================================================================== *)
(** * The prediction client ([src/lib/api.ts]) *)
(* ================================================================== *)

Module Api.

Import JS.
Local Open Scope string_scope.

Record PredictionRequest : Type := {
  bedrooms : number;
  bathrooms : number;
  living_area : number;
  condition : number;
  schools : number
}.

Record PredictionResponse : Type := {
  price : number;
  currency : string
}.

(** ** The network, as the client sees it *)

(** The argument of [fetch].  The body is the object handed to
    [JSON.stringify], which writes its five properties in this order. *)
Record Request : Type := {
  url : string;
  method : string;
  headers : list (string * string);
  body : option PredictionRequest
}.

(** What the client reads of a [Response]: the status, and what
    [response.text()] and [response.json()] settle to. *)
Record Response : Type := {
  status : N;
  text : completion string;
  json : completion JS.json
}.

(** [response.ok]: the status is in the range 200-299. *)
Definition ok (r : Response) : bool := ((200 <=? status r) && (status r <=? 299))%N.

(** The promise of [fetch] rejects (a network failure, or an [AbortError]
    when the abort timer fires first) or resolves to a response. *)
Definition fetch_outcome : Type := completion Response.

(** The rejection of a [fetch] whose signal was aborted: a [DOMException],
    an [Error] instance by inheritance, named [AbortError]. *)
Definition aborted (message : string) : fetch_outcome :=
  Throw (ErrorObj "AbortError" message).

(** The behaviour of the network: what [fetch] settles to, per request. *)
Definition network : Type := Request -> fetch_outcome.

(** ** Computations: the requests issued, then the completion

    An [async] function is modelled by what it does to the network and by
    what its promise settles to.  The abort timers appear through their
    effect, a [fetch] rejected with an [AbortError]; the console output of
    development builds is left out. *)

Definition io (A : Type) : Type := list Request * completion A.

Definition ret {A} (a : A) : io A := ([], Return a).
Definition throw {A} (t : thrown) : io A := ([], Throw t).
Definition lift {A} (c : completion A) : io A := ([], c).

Definition bind {A B} (m : io A) (k : A -> io B) : io B :=
  match m with
  | (l, Return a) => let '(l', r) := k a in ((l ++ l')%list, r)
  | (l, Throw t) => (l, Throw t)
  end.

(** [try { m } catch (error) { handler error }] *)
Definition try_catch {A} (m : io A) (handler : thrown -> io A) : io A :=
  match m with
  | (l, Throw t) => let '(l', r) := handler t in ((l ++ l')%list, r)
  | (l, Return a) => (l, Return a)
  end.

Notation "x <- m ;; k" := (bind m (fun x => k))
  (at level 61, m at next level, right associativity).

Section Client.

(** [VITE_API_BASE] and [VITE_API_KEY], with their defaults applied. *)
Variable API_BASE : string.
Variable API_KEY : string.

(** The behaviour of the network for this call. *)
Variable net : network.

Definition fetch (r : Request) : io Response := ([r], net r).

(** [data.status === 'ok'] *)
Definition is_ok_status (v : option JS.json) : bool :=
  match v with
  | Some (JString s) => (s =? "ok")
  | _ => false
  end.

Definition checkHealth : io bool :=
  try_catch
    (response <- fetch {| url := API_BASE ++ "/health"; method := "GET";
                          headers := []; body := None |} ;;
     if negb (ok response) then ret false
     else
       data <- lift (json response) ;;
       st <- lift (get data "status") ;;
       ret (is_ok_status st))
    (fun _ => ret false).

Definition validateAndConvertForm (form : HouseFormData.t)
  : completion PredictionRequest :=
  let bedrooms := Number (HouseFormData.bedrooms form) in
  let bathrooms := Number (HouseFormData.bathrooms form) in
  let living_area := Number (HouseFormData.living_area form) in
  let condition := Number (HouseFormData.condition form) in
  let schools := Number (HouseFormData.schools form) in
  if isNaN bedrooms || isNaN bathrooms || isNaN living_area
     || isNaN condition || isNaN schools
  then Throw (new_Error "All form fields must be valid numbers")
  else
    Return {| bedrooms := Math_floor bedrooms;
              bathrooms := Math_floor bathrooms;
              living_area := living_area;
              condition := Math_floor condition;
              schools := Math_floor schools |}.

Definition timeout_message : string :=
  "Request timed out after 15 seconds. Please try again.".
Definition format_message : string :=
  "Invalid response format: missing or invalid price/currency fields".
Definition unexpected_message : string :=
  "An unexpected error occurred during prediction".

(** [`Prediction failed (HTTP ${response.status}): ${errorText}`] *)
Definition http_message (status : N) (errorText : string) : string :=
  "Prediction failed (HTTP " ++ digits status ++ "): " ++ errorText.

(** [await response.text().catch(() => 'Unknown error')] *)
Definition text_or_unknown (r : Response) : string :=
  match text r with
  | Return t => t
  | Throw _ => "Unknown error"
  end.

(** The [catch] block of [predict]. *)
Definition predict_catch (error : thrown) : io PredictionResponse :=
  match error with
  | ErrorObj name _ =>
      if name =? "AbortError" then throw (new_Error timeout_message)
      else throw error
  | NonError => throw (new_Error unexpected_message)
  end.

Definition predict (form : HouseFormData.t) : io PredictionResponse :=
  requestData <- lift (validateAndConvertForm form) ;;
  let headers := [("Content-Type", "application/json")] in
  let headers :=
    if truthy API_KEY then (headers ++ [("x-api-key", API_KEY)])%list
    else headers in
  try_catch
    (response <- fetch {| url := API_BASE ++ "/predict"; method := "POST";
                          headers := headers; body := Some requestData |} ;;
     if negb (ok response) then
       let errorText := text_or_unknown response in
       throw (new_Error (http_message (status response) errorText))
     else
       data <- lift (json response) ;;
       (* [typeof data.price !== 'number' || typeof data.currency !== 'string'],
          read from left to right *)
       p <- lift (get data "price") ;;
       match p with
       | Some (JNumber pr) =>
           c <- lift (get data "currency") ;;
           match c with
           | Some (JString cu) => ret {| price := pr; currency := cu |}
           | _ => throw (new_Error format_message)
           end
       | _ => throw (new_Error format_message)
       end)
    predict_catch.

End Client.

End Api.

(* ================================================================== *)
(** * The form controller ([pages/HousePricePredictor.tsx]) *)
(* ================================================================== *)

Module Page.

Import JS.
Local Open Scope string_scope.

Definition SAMPLE_DATA : HouseFormData.t :=
  {| HouseFormData.bedrooms := "3";
     HouseFormData.bathrooms := "2";
     HouseFormData.living_area := "1800";
     HouseFormData.condition := "3";
     HouseFormData.schools := "2" |}.

(** The component's state: one field per [useState]. *)
Record State : Type := {
  formData : HouseFormData.t;
  errors : FormErrors.t;
  isLoading : bool;
  prediction : option Api.PredictionResponse;
  apiError : string;
  isHealthy : option bool
}.

(** The state of the first render. *)
Definition initial : State :=
  {| formData := {| HouseFormData.bedrooms := "3";
                    HouseFormData.bathrooms := "2";
                    HouseFormData.living_area := "1200";
                    HouseFormData.condition := "3";
                    HouseFormData.schools := "2" |};
     errors := FormErrors.empty;
     isLoading := false;
     prediction := None;
     apiError := EmptyString;
     isHealthy := None |}.

Definition setFormData (d : HouseFormData.t) (s : State) : State :=
  {| formData := d; errors := errors s; isLoading := isLoading s;
     prediction := prediction s; apiError := apiError s;
     isHealthy := isHealthy s |}.

Definition setErrors (e : FormErrors.t) (s : State) : State :=
  {| formData := formData s; errors := e; isLoading := isLoading s;
     prediction := prediction s; apiError := apiError s;
     isHealthy := isHealthy s |}.

Definition setIsLoading (b : bool) (s : State) : State :=
  {| formData := formData s; errors := errors s; isLoading := b;
     prediction := prediction s; apiError := apiError s;
     isHealthy := isHealthy s |}.

Definition setPrediction (p : option Api.PredictionResponse) (s : State) : State :=
  {| formData := formData s; errors := errors s; isLoading := isLoading s;
     prediction := p; apiError := apiError s; isHealthy := isHealthy s |}.

Definition setApiError (m : string) (s : State) : State :=
  {| formData := formData s; errors := errors s; isLoading := isLoading s;
     prediction := prediction s; apiError := m; isHealthy := isHealthy s |}.

Definition setIsHealthy (h : option bool) (s : State) : State :=
  {| formData := formData s; errors := errors s; isLoading := isLoading s;
     prediction := prediction s; apiError := apiError s; isHealthy := h |}.

(** ** Validation *)

Definition required_message : string :=
  "This field is required and must be a valid number".

(** The test shared by the three counters:
    [!Number.isInteger(numValue) || numValue < lo || numValue > hi]. *)
Definition outside_integers (numValue : number) (lo hi : Z) : bool :=
  negb (Number_isInteger numValue) || lt numValue (of_Z lo)
  || gt numValue (of_Z hi).

Definition validateField (name : Key.t) (value : string) : option string :=
  let numValue := Number value in
  if (trim value =? EmptyString) || isNaN numValue then Some required_message
  else
    match name with
    | Key.bedrooms =>
        if outside_integers numValue 0 20
        then Some "Bedrooms must be an integer between 0 and 20"
        else None
    | Key.bathrooms =>
        if outside_integers numValue 0 20
        then Some "Bathrooms must be an integer between 0 and 20"
        else None
    | Key.living_area =>
        if lt numValue (of_Z 0) || gt numValue (of_Z 100000)
        then Some "Living area must be between 0 and 100,000 sq ft"
        else None
    | Key.condition =>
        if outside_integers numValue 1 5
        then Some "Condition must be an integer between 1 and 5"
        else None
    | Key.schools =>
        if outside_integers numValue 0 20
        then Some "Schools must be an integer between 0 and 20"
        else None
    end.

(** One turn of the [forEach] of [validateForm], on the pair
    [(newErrors, hasErrors)]. *)
Definition validate_entry (acc : FormErrors.t * bool) (entry : Key.t * string)
  : FormErrors.t * bool :=
  let '(newErrors, hasErrors) := acc in
  let '(key, value) := entry in
  match validateField key value with
  | Some error =>
      if truthy error then (FormErrors.set key (Some error) newErrors, true)
      else acc
  | None => acc
  end.

(** [validateForm()]: the state after [setErrors(newErrors)], and the
    boolean returned. *)
Definition validateForm (s : State) : State * bool :=
  let '(newErrors, hasErrors) :=
    fold_left validate_entry (HouseFormData.entries (formData s))
              (FormErrors.empty, false) in
  (setErrors newErrors s, negb hasErrors).

(** ** Handlers *)

Definition is_set (e : option string) : bool :=
  match e with Some m => truthy m | None => false end.

(** [handleInputChange], for the input called [name] holding [value].  The
    three tests read the state of the render the handler belongs to. *)
Definition handleInputChange (name : Key.t) (value : string) (s : State) : State :=
  let s1 := setFormData (HouseFormData.set name value (formData s)) s in
  let s2 :=
    if is_set (FormErrors.get name (errors s))
    then setErrors (FormErrors.set name None (errors s1)) s1 else s1 in
  let s3 := if truthy (apiError s) then setApiError EmptyString s2 else s2 in
  match prediction s with
  | Some _ => setPrediction None s3
  | None => s3
  end.

(** [handleTrySample] *)
Definition handleTrySample (s : State) : State :=
  setPrediction None
    (setApiError EmptyString (setErrors FormErrors.empty (setFormData SAMPLE_DATA s))).

(** [error instanceof Error ? error.message : 'An unexpected error occurred'] *)
Definition message_of (error : thrown) : string :=
  match error with
  | ErrorObj _ message => message
  | NonError => "An unexpected error occurred"
  end.

(** The end of [handleSubmit], once the promise of [predict] has settled:
    the [try] or the [catch] branch, then [finally]. *)
Definition handleSubmit_settled (outcome : completion Api.PredictionResponse)
    (s : State) : State :=
  let s1 :=
    match outcome with
    | Return result => setPrediction (Some result) s
    | Throw error => setApiError (message_of error) s
    end in
  setIsLoading false s1.

(** ** The component as a transition system

    A configuration is the state of the component together with the
    promises of [predict] that have not settled yet, the pending health
    check and the requests issued so far. *)
Record config : Type := {
  st : State;
  inflight : list (completion Api.PredictionResponse);
  health : option (completion bool);
  sent : list Api.Request
}.

Section Component.

Variable API_BASE : string.
Variable API_KEY : string.

(** The start of [handleSubmit], up to the [await]: validation, the three
    updates, and the call of [predict], which runs up to its [fetch].  [net]
    is what the network will answer to that call. *)
Definition handleSubmit (net : Api.network) (c : config) : config :=
  let '(s1, valid) := validateForm (st c) in
  if negb valid then
    {| st := s1; inflight := inflight c; health := health c; sent := sent c |}
  else
    let s2 := setPrediction None (setApiError EmptyString (setIsLoading true s1)) in
    let '(requests, outcome) :=
      Api.predict API_BASE API_KEY net (formData (st c)) in
    {| st := s2; inflight := inflight c ++ [outcome]; health := health c;
       sent := sent c ++ requests |}.

(** [handleKeyDown] *)
Definition handleKeyDown (key : string) (net : Api.network) (c : config) : config :=
  if (key =? "Enter") && negb (isLoading (st c)) then handleSubmit net c
  else c.

Definition with_state (f : State -> State) (c : config) : config :=
  {| st := f (st c); inflight := inflight c; health := health c;
     sent := sent c |}.

(** What can happen to the mounted component. *)
Inductive event : Type :=
  | Change (name : Key.t) (value : string)
      (** [onChange] of one of the five inputs *)
  | KeyDown (key : string) (net : Api.network)
      (** [onKeyDown] of one of the five inputs *)
  | Submit (net : Api.network)
      (** [onSubmit] of the form, through its submit button *)
  | TrySample
      (** [onClick] of the sample button *)
  | PredictSettled (i : nat)
      (** the [i]-th pending promise of [predict] settles *)
  | HealthSettled.
      (** the promise of [checkHealth] settles *)

Definition remove_nth {A} (i : nat) (l : list A) : list A :=
  firstn i l ++ skipn (S i) l.

(** The configuration after an event, or [None] when the event cannot
    occur: both buttons carry [disabled={isLoading}], and a promise settles
    only while it is pending. *)
Definition dispatch (e : event) (c : config) : option config :=
  match e with
  | Change name value => Some (with_state (handleInputChange name value) c)
  | KeyDown key net => Some (handleKeyDown key net c)
  | Submit net =>
      if isLoading (st c) then None else Some (handleSubmit net c)
  | TrySample =>
      if isLoading (st c) then None else Some (with_state handleTrySample c)
  | PredictSettled i =>
      match nth_error (inflight c) i with
      | Some outcome =>
          Some {| st := handleSubmit_settled outcome (st c);
                  inflight := remove_nth i (inflight c);
                  health := health c; sent := sent c |}
      | None => None
      end
  | HealthSettled =>
      match health c with
      | Some (Return healthy) =>
          Some {| st := setIsHealthy (Some healthy) (st c);
                  inflight := inflight c; health := None; sent := sent c |}
      | Some (Throw _) =>
          Some {| st := st c; inflight := inflight c; health := None;
                  sent := sent c |}
      | None => None
      end
  end.

(** The configuration after mounting: the effect has called [checkHealth]. *)
Definition mount (net : Api.network) : config :=
  let '(requests, outcome) := Api.checkHealth API_BASE net in
  {| st := initial; inflight := []; health := Some outcome; sent := requests |}.

Inductive reachable : config -> Prop :=
  | reachable_mount (net : Api.network) : reachable (mount net)
  | reachable_step (c c' : config) (e : event) :
      reachable c -> dispatch e c = Some c' -> reachable c'.

End Component.

End Page.


(* ================================================================== *)
(** * The vocabulary of the specification *)
(* ================================================================== *)

Module Spec.

Import JS.
Local Open Scope string_scope.
Local Open Scope Z_scope.

(** ** Field validation rules *)

(** "The value parses as a number": with the white space around it
    removed, the value is a numeric literal, and [x] is the number it
    denotes. *)
Definition parses_as_number (value : string) (x : number) : Prop :=
  StrNumericLiteral (trim value) = Some x.

(** "An integer in [[lo,hi]]" *)
Definition integer_in (lo hi : Z) (x : number) : Prop :=
  exists q n, JS.value x = Some q /\ (q == inject_Z n)%Q /\ lo <= n <= hi.

(** "A number in [[lo,hi]] (non-integer allowed)" *)
Definition number_in (lo hi : Z) (x : number) : Prop :=
  exists q, JS.value x = Some q /\ (inject_Z lo <= q)%Q /\ (q <= inject_Z hi)%Q.

Definition range_rule (name : Key.t) (x : number) : Prop :=
  match name with
  | Key.bedrooms | Key.bathrooms | Key.schools => integer_in 0 20 x
  | Key.condition => integer_in 1 5 x
  | Key.living_area => number_in 0 100000 x
  end.

(** A field of the form fails its validation rule. *)
Definition fails (d : HouseFormData.t) (name : Key.t) : Prop :=
  Page.validateField name (HouseFormData.get name d) <> None.

(** The errors of the five fields, each from its own validation. *)
Definition field_errors (d : HouseFormData.t) : FormErrors.t :=
  {| FormErrors.bedrooms :=
       Page.validateField Key.bedrooms (HouseFormData.bedrooms d);
     FormErrors.bathrooms :=
       Page.validateField Key.bathrooms (HouseFormData.bathrooms d);
     FormErrors.living_area :=
       Page.validateField Key.living_area (HouseFormData.living_area d);
     FormErrors.condition :=
       Page.validateField Key.condition (HouseFormData.condition d);
     FormErrors.schools :=
       Page.validateField Key.schools (HouseFormData.schools d) |}.

(** ** Conversion of the form values *)

(** "Is not a number", for a field of the form handed to [predict]: as
    for the validation rules, the value does not parse as a number.  A
    blank value is of that kind. *)
Definition not_a_number (value : string) : Prop :=
  ~ exists x, parses_as_number value x.

(** A value that is empty once the white space around it is removed. *)
Definition blank (value : string) : Prop := trim value = EmptyString.

(** The field of a payload, by its key. *)
Definition payload (name : Key.t) (rd : Api.PredictionRequest) : number :=
  match name with
  | Key.bedrooms => Api.bedrooms rd
  | Key.bathrooms => Api.bathrooms rd
  | Key.living_area => Api.living_area rd
  | Key.condition => Api.condition rd
  | Key.schools => Api.schools rd
  end.

Definition all_numbers (form : HouseFormData.t) : Prop :=
  forall name, isNaN (Number (HouseFormData.get name form)) = false.

(** Truncation of a rational: the fractional part is dropped. *)
Definition truncate (q : Q) : Z := Z.quot (Qnum q) (Zpos (Qden q)).

(** [y] is [x] truncated to an integer. *)
Definition truncated (x y : number) : Prop :=
  exists q q', JS.value x = Some q /\ JS.value y = Some q' /\
               (q' == inject_Z (truncate q))%Q.

(** [y] is [x] rounded down to an integer; an infinity stays as it is. *)
Definition rounded_down (x y : number) : Prop :=
  match JS.value x with
  | Some q => exists q', JS.value y = Some q' /\ (q' == inject_Z (Qfloor q))%Q
  | None => y = x
  end.

(** ** The two requests of the external interface *)

(** [GET /health] *)
Definition health_request (API_BASE : string) : Api.Request :=
  {| Api.url := API_BASE ++ "/health"; Api.method := "GET";
     Api.headers := []; Api.body := None |}.

(** [POST /predict] with the JSON body [requestData] and, when an API key
    is configured, the header that carries it. *)
Definition predict_request (API_BASE API_KEY : string)
    (requestData : Api.PredictionRequest) : Api.Request :=
  {| Api.url := API_BASE ++ "/predict"; Api.method := "POST";
     Api.headers :=
       if truthy API_KEY
       then [("Content-Type", "application/json"); ("x-api-key", API_KEY)]
       else [("Content-Type", "application/json")];
     Api.body := Some requestData |}.

(** ** Failures of [predict] *)

Definition input_error : thrown :=
  new_Error "All form fields must be valid numbers".
Definition timeout_error : thrown := new_Error Api.timeout_message.
Definition format_error : thrown := new_Error Api.format_message.

(** The body of a response has both a numeric [price] and a string
    [currency]. *)
Definition has_price_and_currency (r : Api.Response) (p : number) (c : string)
  : Prop :=
  exists members,
    Api.json r = Return (JObject members) /\
    lookup "price" members = Some (JNumber p) /\
    lookup "currency" members = Some (JString c).

Definition lacks_price_or_currency (r : Api.Response) : Prop :=
  forall p c, ~ has_price_and_currency r p c.

(** ** The state of the form controller *)

(** The result and the API error are not both set. *)
Definition exclusive (s : Page.State) : Prop :=
  Page.prediction s = None \/ Page.apiError s = EmptyString.


(** What holds of every configuration the component can reach: no promise
    is pending and the loading flag is down, or one promise is pending,
    the flag is up and neither the result nor the API error is set. *)
Definition invariant (c : Page.config) : Prop :=
  exclusive (Page.st c) /\
  match Page.inflight c with
  | [] => Page.isLoading (Page.st c) = false
  | [_] => Page.isLoading (Page.st c) = true /\
           Page.prediction (Page.st c) = None /\
           Page.apiError (Page.st c) = EmptyString
  | _ => False
  end.

End Spec.

(* ================================================================== *)
(** * Sample forms, networks and configurations *)
(* ================================================================== *)

Module Samples.

Import JS.
Local Open Scope string_scope.

(** The default of [VITE_API_BASE]; no API key. *)
Definition base : string := "http://127.0.0.1:8000".
Definition no_key : string := EmptyString.

(** A network that is down. *)
Definition offline : Api.network :=
  fun _ => Throw (ErrorObj "TypeError" "Failed to fetch").

(** A network that answers every request with [r]. *)
Definition server (r : Api.Response) : Api.network := fun _ => Return r.

Definition quoted (s : string) : string :=
  String (ascii_of_nat 34) s ++ String (ascii_of_nat 34) EmptyString.

(** [200] with the body [{price: 450000, currency: USD}]. *)
Definition priced : Api.Response :=
  {| Api.status := 200;
     Api.text :=
       Return ("{" ++ quoted "price" ++ ":450000," ++ quoted "currency"
                   ++ ":" ++ quoted "USD" ++ "}");
     Api.json :=
       Return (JObject [("price", JNumber (of_Z 450000));
                        ("currency", JString "USD")]) |}.

(** [200] with a body that is a page of HTML, not JSON. *)
Definition html_page : Api.Response :=
  {| Api.status := 200;
     Api.text := Return "<html>It works</html>";
     Api.json :=
       Throw (ErrorObj "SyntaxError"
                "Unexpected token < in JSON at position 0") |}.

(** [200] with the body [null]. *)
Definition null_body : Api.Response :=
  {| Api.status := 200;
     Api.text := Return "null";
     Api.json := Return JNull |}.

(** [500] with a plain text body. *)
Definition server_error : Api.Response :=
  {| Api.status := 500;
     Api.text := Return "Internal Server Error";
     Api.json :=
       Throw (ErrorObj "SyntaxError"
                "Unexpected token I in JSON at position 0") |}.

(** A form with a negative, fractional number of bedrooms. *)
Definition negative_fraction : HouseFormData.t :=
  HouseFormData.mk "-1.5" "2" "1800" "3" "2".

(** A form that the validation of the page rejects twice: fifty bedrooms,
    condition zero. *)
Definition out_of_range : HouseFormData.t :=
  HouseFormData.mk "50" "2" "1800" "0" "2".

(** A form whose first field is blank. *)
Definition blank_bedrooms : HouseFormData.t :=
  HouseFormData.mk " " "2" "1800" "3" "2".

(** A form whose first field is spelled out. *)
Definition spelled_out : HouseFormData.t :=
  HouseFormData.mk "three" "2" "1800" "3" "2".

(** The payload of the sample form. *)
Definition sample_payload : Api.PredictionRequest :=
  {| Api.bedrooms := of_Z 3; Api.bathrooms := of_Z 2;
     Api.living_area := of_Z 1800; Api.condition := of_Z 3;
     Api.schools := of_Z 2 |}.

(** The component just mounted, with a blank first field. *)
Definition editing : Page.config :=
  Page.with_state (Page.handleInputChange Key.bedrooms " ")
    (Page.mount base offline).

(** The component after a submission of its initial form, the answer of
    the server still to come. *)
Definition submitted : Page.config :=
  Page.handleSubmit base no_key (server priced) (Page.mount base offline).




(** [200] with a price and a currency that is no currency code. *)
Definition priced_in_words : Api.Response :=
  {| Api.status := 200;
     Api.text := Return "(a price in dollars)";
     Api.json :=
       Return (JObject [("price", JNumber (of_Z 450000));
                        ("currency", JString "dollars")]) |}.


End Samples.

(* ================================================================== *)
(** * What the component renders *)
(* ================================================================== *)

Module PageView.

Import JS Page.
Local Open Scope string_scope.

(** ** [formatCurrency] *)

(** The text [Intl.NumberFormat] gives, in the locale [en-US], for an
    amount in a currency.  The characters of that text come from the
    locale data of the engine; the model keeps what determines it, the
    amount and the currency code in upper case. *)
Record currency_text : Type := {
  amount : number;
  code : string
}.

Definition is_letter (c : ascii) : bool :=
  let n := JS.code c in
  ((65 <=? n) && (n <=? 90) || (97 <=? n) && (n <=? 122))%Z.

Definition upper (c : ascii) : ascii :=
  let n := JS.code c in
  if ((97 <=? n) && (n <=? 122))%Z then ascii_of_N (Z.to_N (n - 32)) else c.

Fixpoint to_upper (s : string) : string :=
  match s with
  | EmptyString => EmptyString
  | String c r => String (upper c) (to_upper r)
  end.

Fixpoint all_letters (s : string) : bool :=
  match s with
  | EmptyString => true
  | String c r => is_letter c && all_letters r
  end.

(** A well-formed currency code: three letters of the basic alphabet. *)
Definition well_formed_code (c : string) : bool :=
  (String.length c =? 3)%nat && all_letters c.

(** [currency || 'USD'] *)
Definition or_USD (currency : string) : string :=
  if truthy currency then currency else "USD".

(** [formatCurrency(price, currency)]: the constructor of the formatter
    throws a [RangeError] unless the currency is a well-formed code (the
    message is the engine's; V8's is used); formatting itself never
    throws. *)
Definition formatCurrency (price : number) (currency : string)
  : completion currency_text :=
  let c := or_USD currency in
  if well_formed_code c
  then Return {| amount := price; code := to_upper c |}
  else Throw (ErrorObj "RangeError" ("Invalid currency code : " ++ c)).

(** ** The rendered page *)

(** The parts of the rendered page that depend on the state: the health
    banner, the five inputs with the message under each, the two buttons,
    the error panel and the result panel, whose text is what
    [formatCurrency] completes with.  Fixed texts and styles are left
    out. *)
Record View : Type := {
  healthBanner : bool;
  inputValue : Key.t -> string;
  inputMessage : Key.t -> option string;
  submitDisabled : bool;
  submitLabel : string;
  sampleDisabled : bool;
  errorPanel : option string;
  resultPanel : option (completion currency_text)
}.

(** [c && <element>] for a string [c]: the element, unless [c] is empty. *)
Definition when_truthy (c : string) : option string :=
  if truthy c then Some c else None.

Definition render (s : State) : View :=
  {| healthBanner :=
       match isHealthy s with Some false => true | _ => false end;
     inputValue := fun name => HouseFormData.get name (formData s);
     inputMessage := fun name =>
       match FormErrors.get name (errors s) with
       | Some m => when_truthy m
       | None => None
       end;
     submitDisabled := isLoading s;
     submitLabel := if isLoading s then "Predicting..." else "Predict Price";
     sampleDisabled := isLoading s;
     errorPanel := when_truthy (apiError s);
     resultPanel :=
       match prediction s with
       | Some p => Some (formatCurrency (Api.price p) (Api.currency p))
       | None => None
       end |}.

(** What is on the screen.  No error boundary surrounds the component: when
    [formatCurrency] throws while the result panel is rendered, rendering
    fails as a whole and nothing is mounted. *)
Definition mounted (s : State) : completion View :=
  match resultPanel (render s) with
  | Some (Throw t) => Throw t
  | _ => Return (render s)
  end.

End PageView.

(* ================================================================== *)
(** * Runs of the component *)
(* ================================================================== *)

Module Runs.

Import Page.

Section Runs.

Variables API_BASE API_KEY : string.

(** The configuration after a sequence of events, when each of them can
    occur in its turn. *)
Fixpoint run (events : list event) (c : config) : option config :=
  match events with
  | [] => Some c
  | e :: rest =>
      match dispatch API_BASE API_KEY e c with
      | Some c' => run rest c'
      | None => None
      end
  end.

End Runs.


End Runs.

(* ================================================================== *)
(** * The requests on the wire *)
(* ================================================================== *)

Module Wire.

Import JS Spec.
Local Open Scope string_scope.

(** The field specifications of the service: four integers and a number,
    each within its range. *)
Definition valid_payload (rd : Api.PredictionRequest) : Prop :=
  range_rule Key.bedrooms (Api.bedrooms rd) /\
  range_rule Key.bathrooms (Api.bathrooms rd) /\
  range_rule Key.living_area (Api.living_area rd) /\
  range_rule Key.condition (Api.condition rd) /\
  range_rule Key.schools (Api.schools rd).

(** The payload whose fields are the numbers the form values parse as,
    without any rounding. *)
Definition parsed_payload (form : HouseFormData.t) : Api.PredictionRequest :=
  {| Api.bedrooms := Number (HouseFormData.bedrooms form);
     Api.bathrooms := Number (HouseFormData.bathrooms form);
     Api.living_area := Number (HouseFormData.living_area form);
     Api.condition := Number (HouseFormData.condition form);
     Api.schools := Number (HouseFormData.schools form) |}.

(** A request the service expects: the health probe, or a prediction
    request whose payload meets the field specifications. *)
Definition expected_request (API_BASE API_KEY : string) (req : Api.Request)
  : Prop :=
  req = health_request API_BASE \/
  exists rd, req = predict_request API_BASE API_KEY rd /\ valid_payload rd.

(** The message of a field whose number is out of range. *)
Definition range_message (name : Key.t) : string :=
  match name with
  | Key.bedrooms => "Bedrooms must be an integer between 0 and 20"
  | Key.bathrooms => "Bathrooms must be an integer between 0 and 20"
  | Key.living_area => "Living area must be between 0 and 100,000 sq ft"
  | Key.condition => "Condition must be an integer between 1 and 5"
  | Key.schools => "Schools must be an integer between 0 and 20"
  end.

End Wire.

(* ================================================================== *)
(** * Facts about the JavaScript fragment *)
(* ================================================================== *)

Module JSFacts.

Import JS.
Local Open Scope Z_scope.

(** ** Rounding never produces NaN *)

Lemma shr_1_nonneg mrs : 0 <= shr_m mrs -> 0 <= shr_m (shr_1 mrs).
Proof.
  destruct mrs as [m r s]; simpl.
  destruct m as [|p|p]; [ | destruct p | ]; simpl; lia.
Qed.

Lemma iter_shr_1_nonneg n : forall mrs,
  0 <= shr_m mrs -> 0 <= shr_m (iter_pos shr_1 n mrs).
Proof.
  induction n as [n IH|n IH|]; intros mrs H; simpl.
  - apply IH, IH, shr_1_nonneg, H.
  - apply IH, IH, H.
  - apply shr_1_nonneg, H.
Qed.

Lemma shr_fexp_nonneg m e l :
  0 <= m -> 0 <= shr_m (fst (shr_fexp prec emax m e l)).
Proof.
  intros H. unfold shr_fexp, shr.
  assert (H0 : 0 <= shr_m (shr_record_of_loc m l)).
  { destruct l as [|[| |]]; simpl; exact H. }
  destruct (fexp prec emax (Zdigits2 m + e) - e); simpl; auto.
  apply iter_shr_1_nonneg, H0.
Qed.

Lemma round_nearest_even_nonneg m l : 0 <= m -> 0 <= round_nearest_even m l.
Proof.
  intros H. destruct l as [|[| |]]; simpl; try lia.
  destruct (Z.even m); lia.
Qed.

Lemma binary_round_aux_not_nan s m e l :
  0 <= m -> isNaN (binary_round_aux prec emax s m e l) = false.
Proof.
  intros H. unfold binary_round_aux.
  pose proof (shr_fexp_nonneg m e l H) as H1.
  destruct (shr_fexp prec emax m e l) as [mrs' e']. simpl in H1.
  pose proof (shr_fexp_nonneg
                (round_nearest_even (shr_m mrs') (loc_of_shr_record mrs'))
                e' loc_Exact
                (round_nearest_even_nonneg _ _ H1)) as H2.
  destruct (shr_fexp prec emax _ e' loc_Exact) as [mrs'' e'']. simpl in H2.
  destruct (shr_m mrs'') as [|q|q]; [reflexivity | | lia].
  destruct (e'' <=? emax - prec); reflexivity.
Qed.

Lemma round_literal_not_nan l : isNaN (round_literal l) = false.
Proof.
  destruct l as [s|s m e]; [reflexivity|].
  destruct m as [|p|p]; try reflexivity.
  unfold round_literal.
  destruct (Z.leb_spec 0 e) as [He|He].
  - unfold binary_round.
    destruct (shl_align _ _ _) as [mz ez].
    apply binary_round_aux_not_nan. lia.
  - unfold SFdiv_core_binary.
    set (m' := match _ with Z0 => _ | Zpos _ => _ | Zneg _ => _ end).
    assert (Hm : 0 <= m').
    { subst m'. destruct (0 - 0 - _); try lia.
      apply (proj2 (Z.shiftl_nonneg _ _)). lia. }
    assert (Hd : 0 < 10 ^ (- e)) by (apply Z.pow_pos_nonneg; lia).
    pose proof (Z.div_pos m' (10 ^ (- e)) Hm Hd) as Hq.
    unfold Z.div in Hq.
    destruct (Z.div_eucl m' (10 ^ (- e))) as [q r]. simpl in Hq.
    apply binary_round_aux_not_nan, Hq.
Qed.

Lemma StrNumericLiteral_not_nan t x :
  StrNumericLiteral t = Some x -> isNaN x = false.
Proof.
  unfold StrNumericLiteral. destruct (parse_literal t); simpl; [|discriminate].
  intros H. injection H as <-. apply round_literal_not_nan.
Qed.

(** ** [Number] and the numeric grammar *)

Lemma Number_literal value :
  trim value <> EmptyString ->
  Number value = match StrNumericLiteral (trim value) with
                 | Some x => x
                 | None => NaN
                 end.
Proof.
  unfold Number. destruct (trim value); [congruence | reflexivity].
Qed.

Lemma Number_blank value :
  trim value = EmptyString -> Number value = S754_zero false.
Proof. unfold Number. intros ->. reflexivity. Qed.

(** A string is rejected as "not a number" by the two tests of the code,
    [value.trim() === '' || isNaN(Number(value))], exactly when it is not a
    numeric literal once the white space around it is removed. *)
Lemma not_a_literal value :
  (trim value =? EmptyString)%string || isNaN (Number value) = true <->
  StrNumericLiteral (trim value) = None.
Proof.
  destruct (String.eqb_spec (trim value) EmptyString) as [E|E]; simpl.
  - rewrite E. split; reflexivity.
  - rewrite (Number_literal _ E).
    destruct (StrNumericLiteral (trim value)) as [x|] eqn:L.
    + rewrite (StrNumericLiteral_not_nan _ _ L). split; discriminate.
    + split; reflexivity.
Qed.

(** ** Values *)

Lemma pow2_pos e : 0 <= e -> Zpos (pow2 e) = 2 ^ e.
Proof.
  intros H. unfold pow2. apply Z2Pos.id. apply Z.pow_pos_nonneg; lia.
Qed.

Lemma iter_xO p d : Zpos (Pos.iter xO p d) = Zpos p * 2 ^ Zpos d.
Proof.
  induction d as [|d IH] using Pos.peano_ind.
  - simpl. lia.
  - rewrite Pos.iter_succ, Pos2Z.inj_xO, IH, Pos2Z.inj_succ, Z.pow_succ_r; lia.
Qed.

Lemma of_pos_value s p :
  exists q, value (of_pos s p) = Some q /\ (q == inject_Z (cond_Zopp s (Zpos p)))%Q.
Proof.
  unfold of_pos, shl_align.
  destruct (fexp prec emax (Z.pos (digits2_pos p)) - 0) as [|k|k] eqn:E.
  - eexists; split; [reflexivity|].
    unfold finite_value; simpl. rewrite Z.mul_1_r. reflexivity.
  - eexists; split; [reflexivity|].
    unfold finite_value; simpl. rewrite Z.mul_1_r. reflexivity.
  - assert (E' : fexp prec emax (Z.pos (digits2_pos p)) = Zneg k) by lia.
    rewrite E'. eexists; split; [reflexivity|].
    unfold finite_value. change (0 <=? Z.neg k) with false. cbv iota.
    unfold Qeq. cbn [Qnum Qden inject_Z].
    change (- Z.neg k) with (Zpos k). rewrite pow2_pos by lia.
    change (PosDef.Pos.iter xO p k) with (Pos.iter xO p k).
    pose proof (iter_xO p k) as Hk.
    destruct s; cbn [cond_Zopp]; lia.
Qed.

Lemma of_Z_value n :
  exists q, value (of_Z n) = Some q /\ (q == inject_Z n)%Q.
Proof.
  destruct n as [|p|p].
  - exists 0%Q. split; reflexivity.
  - apply (of_pos_value false p).
  - apply (of_pos_value true p).
Qed.

Lemma value_not_nan x q : value x = Some q -> isNaN x = false.
Proof. destruct x; simpl; congruence. Qed.

(** [<] and [>] on numbers that have a value are the order of the
    rationals. *)
Lemma lt_value x y qx qy :
  value x = Some qx -> value y = Some qy ->
  (lt x y = true <-> (qx < qy)%Q).
Proof.
  intros Hx Hy. unfold lt.
  assert (E : compare x y = Some (Qcompare qx qy)).
  { destruct x, y; simpl in Hx, Hy; try discriminate;
      unfold compare; cbn [value];
      injection Hx as <-; injection Hy as <-; reflexivity. }
  rewrite E, Qlt_alt.
  destruct (Qcompare qx qy); split; congruence.
Qed.

Lemma gt_value x y qx qy :
  value x = Some qx -> value y = Some qy ->
  (gt x y = true <-> (qy < qx)%Q).
Proof. intros Hx Hy. unfold gt. apply lt_value; assumption. Qed.

(** Against a number that has a value, an infinity is below or above. *)
Lemma infinity_outside s y qy :
  value y = Some qy ->
  lt (S754_infinity s) y = s /\ gt (S754_infinity s) y = negb s.
Proof.
  intros Hy. unfold gt, lt.
  destruct y; simpl in Hy; try discriminate; destruct s; split; reflexivity.
Qed.

Lemma isInteger_value x :
  Number_isInteger x = true <->
  exists q n, value x = Some q /\ (q == inject_Z n)%Q.
Proof.
  destruct x as [s|s| |s m e]; simpl.
  - split; [|reflexivity]. intros _. exists 0%Q, 0. split; reflexivity.
  - split; [discriminate|]. intros (q & n & H & _). discriminate.
  - split; [discriminate|]. intros (q & n & H & _). discriminate.
  - unfold finite_value. destruct (Z.leb_spec 0 e) as [He|He].
    + split; [|reflexivity]. intros _.
      eexists _, _. split; reflexivity.
    + assert (Hd : 0 < 2 ^ (- e)) by (apply Z.pow_pos_nonneg; lia).
      rewrite Z.eqb_eq. split.
      * intros H. apply Z.mod_divide in H; [|lia]. destruct H as [k Hk].
        eexists _, (cond_Zopp s k). split; [reflexivity|].
        unfold Qeq. cbn [Qnum Qden inject_Z]. rewrite pow2_pos by lia.
        destruct s; cbn [cond_Zopp]; rewrite ?Pos2Z.opp_pos; lia.
      * intros (q & n & H & Hq). injection H as <-.
        unfold Qeq in Hq. cbn [Qnum Qden inject_Z] in Hq.
        rewrite pow2_pos in Hq by lia.
        apply Z.mod_divide; [lia|].
        exists (cond_Zopp s n).
        destruct s; cbn [cond_Zopp] in *; lia.
Qed.

(** [Math.floor] computes the floor of the value. *)
Lemma Math_floor_value x q :
  value x = Some q ->
  exists q', value (Math_floor x) = Some q' /\ (q' == inject_Z (Qfloor q))%Q.
Proof.
  destruct x as [s|s| |s m e]; simpl; try discriminate.
  - intros H. injection H as <-. exists 0%Q. split; reflexivity.
  - intros H. injection H as <-. unfold finite_value.
    destruct (Z.leb_spec 0 e) as [He|He].
    + cbn [value]. unfold finite_value.
      destruct (Z.leb_spec 0 e); [|lia].
      eexists; split; [reflexivity|].
      unfold Qfloor, inject_Z. rewrite Z.div_1_r. reflexivity.
    + assert (Hd : 0 < 2 ^ (- e)) by (apply Z.pow_pos_nonneg; lia).
      unfold Qfloor. rewrite pow2_pos by lia.
      destruct (Z.eqb_spec (Z.pos m mod 2 ^ (- e)) 0) as [Hm|Hm].
      * cbn [value]. unfold finite_value.
        destruct (Z.leb_spec 0 e); [lia|].
        eexists; split; [reflexivity|].
        unfold Qeq. cbn [Qnum Qden inject_Z]. rewrite pow2_pos by lia.
        apply Z.mod_divide in Hm; [|lia]. destruct Hm as [k Hk].
        assert (Hs : cond_Zopp s (Z.pos m) = cond_Zopp s k * 2 ^ (- e)).
        { destruct s; cbn [cond_Zopp]; lia. }
        rewrite Hs, Z.div_mul by lia. lia.
      * destruct (of_Z_value (if s then - (Z.pos m / 2 ^ (- e) + 1)
                              else Z.pos m / 2 ^ (- e))) as (q' & Hv & Hq').
        exists q'. split; [exact Hv|]. rewrite Hq'.
        destruct s; cbn [cond_Zopp]; [|reflexivity].
        rewrite (Z.div_opp_l_nz (Z.pos m) (2 ^ (- e))) by lia.
        replace (- (Z.pos m / 2 ^ (- e) + 1)) with (- (Z.pos m / 2 ^ (- e)) - 1) by lia.
        reflexivity.
Qed.

(** [Math.floor] leaves what has no value as it is. *)
Lemma Math_floor_no_value x : value x = None -> Math_floor x = x.
Proof. destruct x; simpl; congruence. Qed.

Lemma isNaN_Math_floor x : isNaN x = false -> isNaN (Math_floor x) = false.
Proof.
  intros H. destruct (value x) as [q|] eqn:V.
  - destruct (Math_floor_value x q V) as (q' & Hv & _).
    apply (value_not_nan _ _ Hv).
  - rewrite (Math_floor_no_value x V). exact H.
Qed.

End JSFacts.

(* ================================================================== *)
(** * Properties of the form controller: validation *)
(* ================================================================== *)

Module ValidationProps.

Import JS JSFacts Spec Page.
Local Open Scope Z_scope.

Lemma empty_is_no_literal : StrNumericLiteral EmptyString = None.
Proof. reflexivity. Qed.

(** The test of the three counters, read on the value of the number. *)
Lemma outside_integers_spec x lo hi :
  outside_integers x lo hi = false <-> integer_in lo hi x.
Proof.
  unfold outside_integers, integer_in.
  destruct (of_Z_value lo) as (qlo & Vlo & Elo).
  destruct (of_Z_value hi) as (qhi & Vhi & Ehi).
  split.
  - intros H.
    apply orb_false_iff in H. destruct H as [H Hgt].
    apply orb_false_iff in H. destruct H as [Hint Hlt].
    apply negb_false_iff in Hint.
    apply isInteger_value in Hint. destruct Hint as (q & n & Vq & Hq).
    exists q, n. split; [exact Vq|]. split; [exact Hq|].
    split.
    + rewrite Zle_Qle. rewrite <- Hq, <- Elo. apply Qnot_lt_le.
      intros C. apply (lt_value _ _ _ _ Vq Vlo) in C. congruence.
    + rewrite Zle_Qle. rewrite <- Hq, <- Ehi. apply Qnot_lt_le.
      intros C. apply (gt_value _ _ _ _ Vq Vhi) in C. congruence.
  - intros (q & n & Vq & Hq & Hlo & Hhi).
    assert (Hint : Number_isInteger x = true).
    { apply isInteger_value. exists q, n. split; assumption. }
    rewrite Hint. simpl.
    apply orb_false_iff. split.
    + apply not_true_is_false. intros C.
      apply (lt_value _ _ _ _ Vq Vlo) in C. rewrite Hq, Elo in C.
      rewrite Zle_Qle in Hlo. apply (Qlt_not_le _ _ C Hlo).
    + apply not_true_is_false. intros C.
      apply (gt_value _ _ _ _ Vq Vhi) in C. rewrite Hq, Ehi in C.
      rewrite Zle_Qle in Hhi. apply (Qlt_not_le _ _ C Hhi).
Qed.

(** The test of the living area, read on the value of the number. *)
Lemma outside_range_spec x lo hi :
  isNaN x = false ->
  (lt x (of_Z lo) || gt x (of_Z hi) = false <-> number_in lo hi x).
Proof.
  intros Hnan. unfold number_in.
  destruct (of_Z_value lo) as (qlo & Vlo & Elo).
  destruct (of_Z_value hi) as (qhi & Vhi & Ehi).
  destruct (value x) as [q|] eqn:Vq.
  - split.
    + intros H. apply orb_false_iff in H. destruct H as [Hlt Hgt].
      exists q. split; [reflexivity|]. split.
      * rewrite <- Elo. apply Qnot_lt_le.
        intros C. apply (lt_value _ _ _ _ Vq Vlo) in C. congruence.
      * rewrite <- Ehi. apply Qnot_lt_le.
        intros C. apply (gt_value _ _ _ _ Vq Vhi) in C. congruence.
    + intros (q0 & E & Hlo & Hhi). injection E as <-.
      apply orb_false_iff. split.
      * apply not_true_is_false. intros C.
        apply (lt_value _ _ _ _ Vq Vlo) in C. rewrite Elo in C.
        apply (Qlt_not_le _ _ C Hlo).
      * apply not_true_is_false. intros C.
        apply (gt_value _ _ _ _ Vq Vhi) in C. rewrite Ehi in C.
        apply (Qlt_not_le _ _ C Hhi).
  - split.
    + intros H. exfalso.
      destruct x as [s|s| |s m e]; simpl in Vq, Hnan; try discriminate.
      destruct (infinity_outside s _ _ Vlo) as [L _].
      destruct (infinity_outside s _ _ Vhi) as [_ G].
      rewrite L, G in H. destruct s; discriminate.
    + intros (q0 & E & _). discriminate.
Qed.

(** The number a value parses as is the one [Number] gives. *)
Lemma parsed_number value x : parses_as_number value x -> Number value = x.
Proof.
  unfold parses_as_number. intros L.
  rewrite Number_literal, L; [reflexivity|].
  intros E. rewrite E, empty_is_no_literal in L. discriminate.
Qed.

(** What the validator answers once the value is known to denote [x]. *)
Lemma validateField_literal name value x :
  parses_as_number value x ->
  validateField name value =
  match name with
  | Key.bedrooms =>
      if outside_integers x 0 20
      then Some "Bedrooms must be an integer between 0 and 20"%string else None
  | Key.bathrooms =>
      if outside_integers x 0 20
      then Some "Bathrooms must be an integer between 0 and 20"%string else None
  | Key.living_area =>
      if lt x (of_Z 0) || gt x (of_Z 100000)
      then Some "Living area must be between 0 and 100,000 sq ft"%string
      else None
  | Key.condition =>
      if outside_integers x 1 5
      then Some "Condition must be an integer between 1 and 5"%string else None
  | Key.schools =>
      if outside_integers x 0 20
      then Some "Schools must be an integer between 0 and 20"%string else None
  end.
Proof.
  intros L.
  assert (T : (trim value =? EmptyString)%string || isNaN (Number value) = false).
  { apply not_true_is_false. intros C. apply not_a_literal in C. congruence. }
  pose proof (parsed_number value x L) as N.
  unfold validateField. rewrite T, N. reflexivity.
Qed.

Lemma validateField_no_literal name value :
  StrNumericLiteral (trim value) = None ->
  validateField name value = Some required_message.
Proof.
  intros L. apply not_a_literal in L.
  unfold validateField. rewrite L. reflexivity.
Qed.

(** Every message of the validator is a non-empty string. *)
Lemma validateField_message name value m :
  validateField name value = Some m -> truthy m = true.
Proof.
  unfold validateField.
  destruct ((trim value =? EmptyString)%string || isNaN (Number value)).
  - intros H. injection H as <-. reflexivity.
  - destruct name;
      match goal with |- (if ?b then _ else _) = _ -> _ => destruct b end;
      intros H; try discriminate; injection H as <-; reflexivity.
Qed.

(** C2. For every field and every string, the validator returns no error
    exactly when the value parses as a number that satisfies the rule of the
    field (an integer in [0,20] for bedrooms, bathrooms and schools, an
    integer in [1,5] for condition, any number in [0,100000] for the living
    area); every error it returns is a non-empty message. *)
Theorem validateField_accepts_exactly_the_valid (name : Key.t) (value : string) :
  (validateField name value = None <->
   exists x, parses_as_number value x /\ range_rule name x) /\
  (forall x, parses_as_number value x -> Number value = x) /\
  (forall m, validateField name value = Some m -> m <> EmptyString).
Proof.
  split; [|split].
  - destruct (StrNumericLiteral (trim value)) as [x|] eqn:L.
    + rewrite (validateField_literal name value x L).
      pose proof (StrNumericLiteral_not_nan _ _ L) as Hnan.
      split.
      * intros H. exists x. split; [exact L|].
        destruct name; simpl;
          match type of H with (if ?b then _ else _) = _ =>
            destruct b eqn:B; [discriminate|] end;
          first [ apply outside_integers_spec; exact B
                | apply (outside_range_spec x 0 100000 Hnan); exact B ].
      * intros (x' & L' & R). unfold parses_as_number in L'.
        assert (x' = x) by congruence. subst x'.
        destruct name; simpl in R;
          first [ apply outside_integers_spec in R
                | apply (outside_range_spec x 0 100000 Hnan) in R ];
          rewrite R; reflexivity.
    + rewrite (validateField_no_literal name value L).
      split; [discriminate|].
      intros (x & L' & _). unfold parses_as_number in L'. congruence.
  - intros x L. apply (parsed_number value x L).
  - intros m H. apply validateField_message in H.
    destruct m; [discriminate|congruence].
Qed.

End ValidationProps.

(* ================================================================== *)
(** * Properties of the form controller: submission and sample *)
(* ================================================================== *)

Module ControllerProps.

Import JS Spec Page ValidationProps.

Lemma validate_entry_eq acc key value :
  validate_entry acc (key, value) =
  match validateField key value with
  | Some error => (FormErrors.set key (Some error) (fst acc), true)
  | None => acc
  end.
Proof.
  destruct acc as [newErrors hasErrors]. simpl.
  destruct (validateField key value) as [error|] eqn:E; [|reflexivity].
  rewrite (validateField_message _ _ _ E). reflexivity.
Qed.

(** [validateForm] stores the error of every field, and answers whether
    there was none. *)
Lemma validateForm_errors s :
  fst (validateForm s) = setErrors (field_errors (formData s)) s.
Proof.
  unfold validateForm, HouseFormData.entries, field_errors.
  cbn [fold_left]. rewrite !validate_entry_eq.
  destruct (validateField Key.bedrooms _), (validateField Key.bathrooms _),
    (validateField Key.living_area _), (validateField Key.condition _),
    (validateField Key.schools _); reflexivity.
Qed.

Lemma validateForm_result s :
  snd (validateForm s) = true <-> forall name, ~ fails (formData s) name.
Proof.
  unfold validateForm, HouseFormData.entries, fails.
  cbn [fold_left]. rewrite !validate_entry_eq.
  split.
  - intros H name.
    destruct (validateField Key.bedrooms _) eqn:E1,
      (validateField Key.bathrooms _) eqn:E2,
      (validateField Key.living_area _) eqn:E3,
      (validateField Key.condition _) eqn:E4,
      (validateField Key.schools _) eqn:E5; simpl in H; try discriminate.
    destruct name; simpl; intros C; apply C; assumption.
  - intros H.
    pose proof (H Key.bedrooms) as H1. pose proof (H Key.bathrooms) as H2.
    pose proof (H Key.living_area) as H3. pose proof (H Key.condition) as H4.
    pose proof (H Key.schools) as H5. simpl in H1, H2, H3, H4, H5.
    destruct (validateField Key.bedrooms _); [exfalso; apply H1; discriminate|].
    destruct (validateField Key.bathrooms _); [exfalso; apply H2; discriminate|].
    destruct (validateField Key.living_area _); [exfalso; apply H3; discriminate|].
    destruct (validateField Key.condition _); [exfalso; apply H4; discriminate|].
    destruct (validateField Key.schools _); [exfalso; apply H5; discriminate|].
    reflexivity.
Qed.

Lemma field_errors_get d name :
  FormErrors.get name (field_errors d) =
  validateField name (HouseFormData.get name d).
Proof. destruct name; reflexivity. Qed.

Section Submission.

Variables API_BASE API_KEY : string.

Lemma handleSubmit_invalid net c :
  snd (validateForm (st c)) = false ->
  Page.handleSubmit API_BASE API_KEY net c =
  {| st := setErrors (field_errors (formData (st c))) (st c);
     inflight := inflight c; health := health c; sent := sent c |}.
Proof.
  intros H. unfold Page.handleSubmit.
  pose proof (validateForm_errors (st c)) as E.
  destruct (validateForm (st c)) as [s1 valid]. simpl in H, E. subst.
  reflexivity.
Qed.

Lemma handleSubmit_valid net c :
  snd (validateForm (st c)) = true ->
  Page.handleSubmit API_BASE API_KEY net c =
  {| st := setPrediction None
             (setApiError EmptyString
                (setIsLoading true
                   (setErrors (field_errors (formData (st c))) (st c))));
     inflight := inflight c ++ [snd (Api.predict API_BASE API_KEY net (formData (st c)))];
     health := health c;
     sent := sent c ++ fst (Api.predict API_BASE API_KEY net (formData (st c))) |}.
Proof.
  intros H. unfold Page.handleSubmit.
  pose proof (validateForm_errors (st c)) as E.
  destruct (validateForm (st c)) as [s1 valid]. simpl in H, E. subst.
  simpl. destruct (Api.predict API_BASE API_KEY net (formData (st c))). reflexivity.
Qed.

(** C1. Submitting re-validates the five fields and stores the error of
    each of them at once, a non-empty message for every field that fails.
    If at least one field fails, nothing else changes: no call of [predict]
    is made and no request is sent.  [predict] is called only if all five
    validations pass, and it is called then. *)
Theorem submit_validates_every_field (net : Api.network) (c : config) :
  let d := formData (st c) in
  let c' := Page.handleSubmit API_BASE API_KEY net c in
  errors (st c') = field_errors d /\
  (forall name, fails d name ->
     exists m, FormErrors.get name (errors (st c')) = Some m /\
               m <> EmptyString) /\
  ((exists name, fails d name) ->
     inflight c' = inflight c /\ sent c' = sent c /\
     st c' = setErrors (field_errors d) (st c)) /\
  (inflight c' <> inflight c \/ sent c' <> sent c ->
     forall name, ~ fails d name) /\
  ((forall name, ~ fails d name) ->
     inflight c' = inflight c ++ [snd (Api.predict API_BASE API_KEY net d)] /\
     sent c' = sent c ++ fst (Api.predict API_BASE API_KEY net d)).
Proof.
  intros d c'. subst d c'.
  destruct (snd (validateForm (st c))) eqn:V.
  - pose proof (proj1 (validateForm_result (st c)) V) as Hall.
    rewrite (handleSubmit_valid net c V). cbn [st inflight sent].
    split; [reflexivity|].
    split; [intros name F; destruct (Hall name F)|].
    split; [intros (name & F); destruct (Hall name F)|].
    split; [intros _; exact Hall|].
    intros _. split; reflexivity.
  - rewrite (handleSubmit_invalid net c V). cbn [st inflight sent].
    split; [reflexivity|].
    split.
    { intros name F. cbn [errors setErrors]. rewrite field_errors_get.
      unfold fails in F.
      destruct (validateField name _) as [m|] eqn:E; [|congruence].
      exists m. split; [reflexivity|].
      apply validateField_message in E. destruct m; [discriminate|congruence]. }
    split; [intros _; repeat split|].
    split; [intros [C|C]; congruence|].
    intros Hall. apply validateForm_result in Hall. congruence.
Qed.

End Submission.

(** C9. From every state, the sample action sets the five fields to the
    sample values "3", "2", "1800", "3", "2" and clears every field error,
    the prediction result and the API error. *)
Theorem sample_resets_the_form (s : State) :
  let s' := handleTrySample s in
  formData s' = HouseFormData.mk "3" "2" "1800" "3" "2" /\
  (forall name, FormErrors.get name (errors s') = None) /\
  prediction s' = None /\
  apiError s' = EmptyString.
Proof.
  simpl. split; [reflexivity|]. split; [|split; reflexivity].
  intros name; destruct name; reflexivity.
Qed.

End ControllerProps.

(* ================================================================== *)
(** * Properties of the form controller: the submission life cycle *)
(* ================================================================== *)

Module LifecycleProps.

Import JS Spec Page ControllerProps.

(** A change of field leaves neither a result nor an API error. *)
Lemma handleInputChange_clears name value s :
  prediction (handleInputChange name value s) = None /\
  apiError (handleInputChange name value s) = EmptyString /\
  isLoading (handleInputChange name value s) = isLoading s.
Proof.
  unfold handleInputChange.
  destruct (is_set (FormErrors.get name (errors s)));
    destruct (apiError s) eqn:A; destruct (prediction s) eqn:P;
    simpl; rewrite ?A, ?P; repeat split; reflexivity.
Qed.

Lemma handleSubmit_settled_state outcome s :
  isLoading (handleSubmit_settled outcome s) = false /\
  match outcome with
  | Return result =>
      prediction (handleSubmit_settled outcome s) = Some result /\
      apiError (handleSubmit_settled outcome s) = apiError s
  | Throw error =>
      prediction (handleSubmit_settled outcome s) = prediction s /\
      apiError (handleSubmit_settled outcome s) = message_of error
  end.
Proof. destruct outcome; simpl; repeat split; reflexivity. Qed.

(** Only the promise at index 0 of a single pending one can settle. *)
Lemma nth_error_single {A} (o outcome : A) i :
  nth_error [o] i = Some outcome -> i = 0%nat /\ outcome = o.
Proof.
  destruct i as [|[|i]]; simpl; intros H; try discriminate.
  injection H as <-. split; reflexivity.
Qed.

Section Lifecycle.

Variables API_BASE API_KEY : string.

Lemma invariant_mount net : invariant (mount API_BASE net).
Proof.
  unfold mount. destruct (Api.checkHealth API_BASE net) as [requests outcome].
  split; [left; reflexivity | reflexivity].
Qed.

Lemma invariant_handleSubmit net c :
  isLoading (st c) = false ->
  invariant c -> invariant (Page.handleSubmit API_BASE API_KEY net c).
Proof.
  intros L [X I].
  assert (E : inflight c = []).
  { destruct (inflight c) as [|o [|o' l]]; [reflexivity| |destruct I].
    destruct I as [I _]. congruence. }
  destruct (snd (validateForm (st c))) eqn:V.
  - rewrite (handleSubmit_valid API_BASE API_KEY net c V), E.
    split; [left; reflexivity|]. simpl. repeat split; reflexivity.
  - rewrite (handleSubmit_invalid API_BASE API_KEY net c V), E.
    split; [exact X | exact L].
Qed.

Lemma invariant_step c e c' :
  invariant c -> dispatch API_BASE API_KEY e c = Some c' -> invariant c'.
Proof.
  intros Hinv D. destruct e as [name value|key net|net| |i|]; simpl in D.
  - injection D as <-. destruct Hinv as [X I].
    destruct (handleInputChange_clears name value (st c)) as (P & A & L).
    unfold invariant, with_state; cbn [st inflight].
    split; [left; exact P|].
    rewrite L, P, A.
    destruct (inflight c) as [|o [|o' l]]; [exact I | | exact I].
    destruct I as [I _]. repeat split; [exact I].
  - injection D as <-. unfold handleKeyDown.
    destruct (isLoading (st c)) eqn:L;
      [rewrite andb_false_r; exact Hinv|].
    destruct (key =? "Enter")%string; simpl; [|exact Hinv].
    apply invariant_handleSubmit; assumption.
  - destruct (isLoading (st c)) eqn:L; [discriminate|].
    injection D as <-. apply invariant_handleSubmit; assumption.
  - destruct (isLoading (st c)) eqn:L; [discriminate|].
    injection D as <-. destruct Hinv as [X I].
    unfold invariant, with_state; cbn [st inflight].
    split; [left; reflexivity|].
    destruct (inflight c) as [|o [|o' l]]; [exact L| |exact I].
    destruct I as [I _]. congruence.
  - destruct (nth_error (inflight c) i) as [outcome|] eqn:N; [|discriminate].
    injection D as <-. destruct Hinv as [X I].
    destruct (inflight c) as [|o [|o' l]] eqn:E;
      [destruct i; discriminate | | destruct I].
    destruct (nth_error_single _ _ _ N) as [-> ->].
    destruct I as (L & P & A).
    unfold invariant; cbn [st inflight]. simpl remove_nth.
    destruct (handleSubmit_settled_state o (st c)) as [L' S].
    split; [|exact L'].
    destruct o as [result|error]; destruct S as [P' A'].
    + right. rewrite A'. exact A.
    + left. rewrite P'. exact P.
  - destruct (health c) as [[healthy|t]|]; [| |discriminate];
      injection D as <-; exact Hinv.
Qed.

Lemma reachable_invariant c :
  reachable API_BASE API_KEY c -> invariant c.
Proof.
  induction 1 as [net|c c' e R IH D].
  - apply invariant_mount.
  - apply (invariant_step c e c' IH D).
Qed.


(** C8. In every configuration the component can reach, the loading flag
    is set exactly while a call of [predict] is pending, and at most one
    is; while the flag is set no event starts another call: no request is
    sent, and the pending call is either still pending or has completed. *)
Theorem no_submission_while_loading (c : config) :
  reachable API_BASE API_KEY c ->
  (isLoading (st c) = true <-> List.length (inflight c) = 1%nat) /\
  (List.length (inflight c) <= 1)%nat /\
  (isLoading (st c) = true ->
   forall e c',
     dispatch API_BASE API_KEY e c = Some c' ->
     sent c' = sent c /\ (inflight c' = inflight c \/ inflight c' = [])).
Proof.
  intros R. pose proof (reachable_invariant c R) as [X I].
  split; [|split].
  - destruct (inflight c) as [|o [|o' l]]; [| |destruct I]; simpl.
    + rewrite I. split; discriminate.
    + destruct I as [I _]. rewrite I. split; reflexivity.
  - destruct (inflight c) as [|o [|o' l]]; [| |destruct I]; simpl; lia.
  - intros L e c' D.
    destruct e as [name value|key net|net| |i|]; simpl in D.
    + injection D as <-. split; [reflexivity | left; reflexivity].
    + injection D as <-. unfold handleKeyDown.
      rewrite L, andb_false_r. split; [reflexivity | left; reflexivity].
    + rewrite L in D. discriminate.
    + rewrite L in D. discriminate.
    + destruct (nth_error (inflight c) i) as [outcome|] eqn:N; [|discriminate].
      injection D as <-. cbn [sent inflight]. split; [reflexivity|].
      destruct (inflight c) as [|o [|o' l]];
        [destruct i; discriminate | | destruct I].
      destruct (nth_error_single _ _ _ N) as [-> _]. right. reflexivity.
    + destruct (health c) as [[healthy|t]|]; [| |discriminate];
        injection D as <-; (split; [reflexivity | left; reflexivity]).
Qed.

End Lifecycle.

End LifecycleProps.

(* ================================================================== *)
(** * Properties of the prediction client *)
(* ================================================================== *)

Module ApiProps.

Import JS JSFacts Spec.
Local Open Scope string_scope.

Section Client.

Variables API_BASE API_KEY : string.
Variable net : Api.network.

(** Once the form converts, [predict] issues its request; what remains
    depends on the answer of the network to that request. *)
Ltac start_predict V rd :=
  unfold Api.predict; rewrite V;
  unfold Api.lift at 1; unfold Api.bind at 1; cbv iota beta;
  match goal with
  | |- context [Api.fetch ?n ?r] =>
      change r with (predict_request API_BASE API_KEY rd)
  end;
  unfold Api.fetch.

Lemma predict_input_error form t :
  Api.validateAndConvertForm form = Throw t ->
  Api.predict API_BASE API_KEY net form = ([], Throw t).
Proof. intros V. unfold Api.predict. rewrite V. reflexivity. Qed.

Ltac caught t :=
  destruct t as [?name ?message|]; simpl;
  [destruct (_ =? "AbortError")|]; reflexivity.

Lemma predict_sends form rd :
  Api.validateAndConvertForm form = Return rd ->
  fst (Api.predict API_BASE API_KEY net form) =
  [predict_request API_BASE API_KEY rd].
Proof.
  intros V. start_predict V rd.
  destruct (net (predict_request API_BASE API_KEY rd)) as [r|t]; simpl;
    [|caught t].
  destruct (Api.ok r); simpl; [|reflexivity].
  destruct (Api.json r) as [data|t]; simpl; [|caught t].
  destruct (get data "price") as [[[| |pr| | |]|]|t]; simpl;
    try reflexivity; [|caught t].
  destruct (get data "currency") as [[[| | |cu| |]|]|t]; simpl;
    try reflexivity; caught t.
Qed.

(** A success response with a price and a currency is returned parsed. *)
Lemma predict_success form rd r p c :
  Api.validateAndConvertForm form = Return rd ->
  net (predict_request API_BASE API_KEY rd) = Return r ->
  Api.ok r = true -> has_price_and_currency r p c ->
  snd (Api.predict API_BASE API_KEY net form) =
  Return {| Api.price := p; Api.currency := c |}.
Proof.
  intros V N O (members & J & P & C). start_predict V rd.
  rewrite N. simpl. rewrite O. simpl. rewrite J. simpl.
  rewrite P. simpl. rewrite C. reflexivity.
Qed.

(** C7, as amended.  Once the form converts, the outcome of [predict]
    follows the answer of the network to its request: a timeout (the fetch
    is aborted) gives the timeout error; a non-success status gives an error
    whose message embeds the status code and the text of the body; a success
    response whose body is a JSON value other than [null] without a numeric
    price or a string currency gives the format error; a success response
    with both gives the parsed result; a success response whose body cannot
    be read as JSON fails with the error of the reader, unchanged. *)
Theorem predict_classifies_the_answer (form : HouseFormData.t)
    (rd : Api.PredictionRequest) :
  Api.validateAndConvertForm form = Return rd ->
  let req := predict_request API_BASE API_KEY rd in
  let result := snd (Api.predict API_BASE API_KEY net form) in
  (forall message, net req = Api.aborted message ->
     result = Throw timeout_error) /\
  (forall r, net req = Return r -> Api.ok r = false ->
     result = Throw (new_Error (Api.http_message (Api.status r)
                                  (Api.text_or_unknown r))) /\
     forall body, Api.text r = Return body ->
       Api.http_message (Api.status r) (Api.text_or_unknown r) =
       "Prediction failed (HTTP " ++ digits (Api.status r) ++ "): " ++ body) /\
  (forall r data, net req = Return r -> Api.ok r = true ->
     Api.json r = Return data -> data <> JNull ->
     lacks_price_or_currency r ->
     result = Throw format_error) /\
  (forall r p c, net req = Return r -> Api.ok r = true ->
     has_price_and_currency r p c ->
     result = Return {| Api.price := p; Api.currency := c |}) /\
  (forall r name message, net req = Return r -> Api.ok r = true ->
     Api.json r = Throw (ErrorObj name message) -> name <> "AbortError" ->
     result = Throw (ErrorObj name message)).
Proof.
  intros V req result. subst req result.
  split; [|split; [|split; [|split]]].
  - intros message N. start_predict V rd. rewrite N. reflexivity.
  - intros r N O. split.
    + start_predict V rd. rewrite N. simpl. rewrite O. reflexivity.
    + intros body T. unfold Api.text_or_unknown. rewrite T. reflexivity.
  - intros r data N O J NN L. start_predict V rd. rewrite N. simpl.
    rewrite O. simpl. rewrite J. simpl.
    destruct data as [|b|n|str|items|members]; try reflexivity;
      [congruence|]. simpl.
    destruct (lookup "price" members) as [[| |pr| | |]|] eqn:P;
      try reflexivity. simpl.
    destruct (lookup "currency" members) as [[| | |cu| |]|] eqn:C;
      try reflexivity.
    exfalso. apply (L pr cu). exists members. repeat split; assumption.
  - intros r p c N O P. apply (predict_success form rd r p c V N O P).
  - intros r name message N O J NA. start_predict V rd.
    rewrite N. simpl. rewrite O. simpl. rewrite J. simpl.
    apply String.eqb_neq in NA. rewrite NA. reflexivity.
Qed.

(** C5. [checkHealth] sends one request and always returns a boolean, never
    throws; the boolean is true exactly when the network answers with a
    success status and a body whose [status] member is the string "ok". *)
Theorem checkHealth_returns_a_boolean :
  exists healthy,
    Api.checkHealth API_BASE net = ([health_request API_BASE], Return healthy) /\
    (healthy = true <->
     exists r members,
       net (health_request API_BASE) = Return r /\ Api.ok r = true /\
       Api.json r = Return (JObject members) /\
       lookup "status" members = Some (JString "ok")).
Proof.
  unfold Api.checkHealth.
  match goal with
  | |- context [Api.fetch ?n ?r] => change r with (health_request API_BASE)
  end.
  unfold Api.fetch.
  destruct (net (health_request API_BASE)) as [r|t] eqn:N; simpl.
  2:{ exists false. split; [reflexivity|]. split; [discriminate|].
      intros (r & members & E & _). discriminate. }
  destruct (Api.ok r) eqn:O; simpl.
  2:{ exists false. split; [reflexivity|]. split; [discriminate|].
      intros (r' & members & E & O' & _). congruence. }
  destruct (Api.json r) as [data|t] eqn:J; simpl.
  2:{ exists false. split; [reflexivity|]. split; [discriminate|].
      intros (r' & members & E & _ & J' & _). congruence. }
  destruct data as [|b|n|str|items|members]; simpl;
    try (exists false; split; [reflexivity|]; split; [discriminate|];
         intros (r' & members' & E & _ & J' & _); congruence).
  exists (Api.is_ok_status (lookup "status" members)).
  split; [reflexivity|]. split.
  - intros S. exists r, members. repeat split; try assumption.
    destruct (lookup "status" members) as [[| | |str| |]|];
      simpl in S; try discriminate.
    apply String.eqb_eq in S. congruence.
  - intros (r' & members' & E & _ & J' & S).
    assert (r' = r) by congruence. subst r'.
    assert (members' = members) by congruence. subst members'.
    rewrite S. reflexivity.
Qed.

Lemma all_numbers_test form :
  all_numbers form <->
  isNaN (Number (HouseFormData.bedrooms form))
  || isNaN (Number (HouseFormData.bathrooms form))
  || isNaN (Number (HouseFormData.living_area form))
  || isNaN (Number (HouseFormData.condition form))
  || isNaN (Number (HouseFormData.schools form)) = false.
Proof.
  unfold all_numbers. split.
  - intros H.
    pose proof (H Key.bedrooms) as H1. pose proof (H Key.bathrooms) as H2.
    pose proof (H Key.living_area) as H3. pose proof (H Key.condition) as H4.
    pose proof (H Key.schools) as H5. simpl in H1, H2, H3, H4, H5.
    rewrite H1, H2, H3, H4, H5. reflexivity.
  - intros H name.
    repeat (apply orb_false_iff in H; destruct H as [H ?]).
    destruct name; assumption.
Qed.

Lemma Math_floor_rounds_down x : rounded_down x (Math_floor x).
Proof.
  unfold rounded_down. destruct (value x) as [q|] eqn:V.
  - apply (Math_floor_value x q V).
  - apply (Math_floor_no_value x V).
Qed.

(** The payload of a form whose five fields are numbers. *)
Lemma validateAndConvertForm_numbers form :
  all_numbers form ->
  Api.validateAndConvertForm form =
  Return {| Api.bedrooms := Math_floor (Number (HouseFormData.bedrooms form));
            Api.bathrooms := Math_floor (Number (HouseFormData.bathrooms form));
            Api.living_area := Number (HouseFormData.living_area form);
            Api.condition := Math_floor (Number (HouseFormData.condition form));
            Api.schools := Math_floor (Number (HouseFormData.schools form)) |}.
Proof.
  intros H. apply all_numbers_test in H.
  unfold Api.validateAndConvertForm. rewrite H. reflexivity.
Qed.

(** What the guard of [validateAndConvertForm] tests: the value is
    neither blank nor a numeric literal. *)
Lemma isNaN_Number value :
  isNaN (Number value) = true <-> not_a_number value /\ ~ blank value.
Proof.
  unfold not_a_number, blank, parses_as_number.
  destruct (String.eqb_spec (trim value) EmptyString) as [E|E].
  - rewrite (Number_blank value E). split; [discriminate|].
    intros [_ B]. destruct (B E).
  - rewrite (Number_literal value E).
    destruct (StrNumericLiteral (trim value)) as [x|] eqn:L.
    + rewrite (StrNumericLiteral_not_nan _ _ L). split; [discriminate|].
      intros [N _]. destruct N. exists x. reflexivity.
    + split; [|reflexivity]. intros _. split; [|exact E].
      intros [x C]. discriminate.
Qed.

Lemma blank_or_parsed_converts value :
  blank value \/ (exists x, parses_as_number value x) ->
  isNaN (Number value) = false.
Proof.
  intros H. apply not_true_is_false. intros C.
  apply isNaN_Number in C. destruct C as [N B].
  destruct H as [H|H]; [exact (B H) | exact (N H)].
Qed.

(** A blank field is the number zero in the payload. *)
Lemma blank_is_sent_as_zero form rd name :
  Api.validateAndConvertForm form = Return rd ->
  blank (HouseFormData.get name form) ->
  payload name rd = S754_zero false.
Proof.
  unfold Api.validateAndConvertForm, blank.
  destruct (_ || _); [discriminate|].
  intros V B. injection V as <-.
  destruct name; simpl in B |- *; rewrite (Number_blank _ B); reflexivity.
Qed.

(** C4, as amended.  If a field of the form is not a number, and not a
    blank either, [predict] fails with the input error and issues no
    request.  If each of the five fields is blank or parses as a number,
    the conversion gives a payload in which bedrooms, bathrooms, condition
    and schools are rounded down to an integer (an infinite value stays as
    it is), the living area is kept as it is, and every blank field is the
    number zero. *)
Theorem predict_converts_the_form (form : HouseFormData.t) :
  ((exists name, not_a_number (HouseFormData.get name form) /\
                 ~ blank (HouseFormData.get name form)) ->
   Api.predict API_BASE API_KEY net form = ([], Throw input_error)) /\
  ((forall name, blank (HouseFormData.get name form) \/
                 exists x, parses_as_number (HouseFormData.get name form) x) ->
   exists rd,
     Api.validateAndConvertForm form = Return rd /\
     rounded_down (Number (HouseFormData.bedrooms form)) (Api.bedrooms rd) /\
     rounded_down (Number (HouseFormData.bathrooms form)) (Api.bathrooms rd) /\
     rounded_down (Number (HouseFormData.condition form)) (Api.condition rd) /\
     rounded_down (Number (HouseFormData.schools form)) (Api.schools rd) /\
     Api.living_area rd = Number (HouseFormData.living_area form) /\
     (forall name, blank (HouseFormData.get name form) ->
                   payload name rd = S754_zero false)).
Proof.
  split.
  - intros (name & H). apply isNaN_Number in H.
    apply predict_input_error. unfold Api.validateAndConvertForm.
    destruct name; simpl in H; rewrite H; rewrite ?orb_true_r; reflexivity.
  - intros H.
    assert (A : all_numbers form).
    { intros name. apply blank_or_parsed_converts, H. }
    pose proof (validateAndConvertForm_numbers form A) as V.
    eexists. split; [exact V|].
    cbn [Api.bedrooms Api.bathrooms Api.condition Api.schools Api.living_area].
    split; [apply Math_floor_rounds_down|].
    split; [apply Math_floor_rounds_down|].
    split; [apply Math_floor_rounds_down|].
    split; [apply Math_floor_rounds_down|].
    split; [reflexivity|].
    intros name B. apply (blank_is_sent_as_zero form _ name V B).
Qed.

(** What [predict] returns depends on the form only through the answer of
    the network to its request. *)
Lemma predict_answer form rd :
  Api.validateAndConvertForm form = Return rd ->
  snd (Api.predict API_BASE API_KEY net form) =
  snd (Api.predict API_BASE API_KEY
         (fun _ => net (predict_request API_BASE API_KEY rd)) form).
Proof. intros V. unfold Api.predict. rewrite V. reflexivity. Qed.

Lemma predict_constant answer form form' rd rd' :
  Api.validateAndConvertForm form = Return rd ->
  Api.validateAndConvertForm form' = Return rd' ->
  snd (Api.predict API_BASE API_KEY (fun _ => answer) form') =
  snd (Api.predict API_BASE API_KEY (fun _ => answer) form).
Proof.
  intros V V'. unfold Api.predict. rewrite V, V'.
  unfold Api.fetch, Api.lift. cbn [Api.bind].
  destruct answer as [r|t]; simpl; [|caught t].
  destruct (Api.ok r); simpl; [|reflexivity].
  destruct (Api.json r) as [data|t]; simpl; [|caught t].
  destruct (get data "price") as [[[| |pr| | |]|]|t]; simpl;
    try reflexivity; [|caught t].
  destruct (get data "currency") as [[[| | |cu| |]|]|t]; simpl;
    try reflexivity; caught t.
Qed.

Lemma predict_outcome_of_answer form form' rd rd' :
  Api.validateAndConvertForm form = Return rd ->
  Api.validateAndConvertForm form' = Return rd' ->
  net (predict_request API_BASE API_KEY rd') =
  net (predict_request API_BASE API_KEY rd) ->
  snd (Api.predict API_BASE API_KEY net form') =
  snd (Api.predict API_BASE API_KEY net form).
Proof.
  intros V V' N.
  rewrite (predict_answer form' rd' V'), (predict_answer form rd V), N.
  apply (predict_constant _ form form' rd rd' V V').
Qed.

(** C10. [predict] checks no range: whenever the five fields are numbers,
    whatever their values, it sends one request, whose body holds the
    converted values, and returns the result of a server that answers with
    a price and a currency; its outcome is the one of any other form to
    whose request the network answers the same, so that no failure comes
    from the values themselves. *)
Theorem predict_checks_no_range (form : HouseFormData.t) :
  all_numbers form ->
  exists rd,
    Api.validateAndConvertForm form = Return rd /\
    fst (Api.predict API_BASE API_KEY net form) =
      [predict_request API_BASE API_KEY rd] /\
    Api.body (predict_request API_BASE API_KEY rd) = Some rd /\
    (forall r p c,
       net (predict_request API_BASE API_KEY rd) = Return r ->
       Api.ok r = true -> has_price_and_currency r p c ->
       snd (Api.predict API_BASE API_KEY net form) =
         Return {| Api.price := p; Api.currency := c |}) /\
    (forall form' rd',
       Api.validateAndConvertForm form' = Return rd' ->
       net (predict_request API_BASE API_KEY rd') =
       net (predict_request API_BASE API_KEY rd) ->
       snd (Api.predict API_BASE API_KEY net form') =
       snd (Api.predict API_BASE API_KEY net form)).
Proof.
  intros H.
  pose proof (validateAndConvertForm_numbers form H) as V.
  eexists. split; [exact V|].
  split; [apply (predict_sends _ _ V)|].
  split; [reflexivity|]. split.
  - intros r p c N O P.
    apply (predict_success form _ r p c V N O P).
  - intros form' rd' V' N.
    apply (predict_outcome_of_answer form form' _ rd' V V' N).
Qed.

(** C6. For the form "3", "2", "1800", "3", "2", [predict] sends one POST
    request to [/predict] whose body is bedrooms 3, bathrooms 2, living
    area 1800, condition 3 and schools 2. *)
Theorem predict_sends_the_sample_body :
  exists req,
    fst (Api.predict API_BASE API_KEY net
           (HouseFormData.mk "3" "2" "1800" "3" "2")) = [req] /\
    Api.url req = API_BASE ++ "/predict" /\
    Api.method req = "POST" /\
    Api.body req = Some {| Api.bedrooms := of_Z 3;
                           Api.bathrooms := of_Z 2;
                           Api.living_area := of_Z 1800;
                           Api.condition := of_Z 3;
                           Api.schools := of_Z 2 |}.
Proof.
  eexists. split.
  - apply predict_sends. vm_compute. reflexivity.
  - repeat split.
Qed.

(** The message of a failure of [predict] is never empty, as long as the
    errors raised by the network and by the reader of the body carry a
    message. *)
Lemma predict_failure_has_message form error :
  (forall req name message,
     net req = Throw (ErrorObj name message) -> message <> EmptyString) ->
  (forall req r name message,
     net req = Return r -> Api.json r = Throw (ErrorObj name message) ->
     message <> EmptyString) ->
  snd (Api.predict API_BASE API_KEY net form) = Throw error ->
  Page.message_of error <> EmptyString.
Proof.
  intros Hnet Hjson.
  destruct (Api.validateAndConvertForm form) as [rd|t] eqn:V.
  2:{ rewrite (predict_input_error form t V). simpl.
      unfold Api.validateAndConvertForm in V.
      destruct (_ || _) in V; [|discriminate].
      injection V as <-. intros E. injection E as <-. discriminate. }
  start_predict V rd.
  destruct (net (predict_request API_BASE API_KEY rd)) as [r|t] eqn:N; simpl.
  2:{ destruct t as [name message|]; simpl.
      - destruct (name =? "AbortError"); simpl; intros E; injection E as <-.
        + discriminate.
        + apply (Hnet _ _ _ N).
      - intros E. injection E as <-. discriminate. }
  destruct (Api.ok r); simpl.
  2:{ intros E. injection E as <-. discriminate. }
  destruct (Api.json r) as [data|t] eqn:J; simpl.
  2:{ destruct t as [name message|]; simpl.
      - destruct (name =? "AbortError"); simpl; intros E; injection E as <-.
        + discriminate.
        + apply (Hjson _ _ _ _ N J).
      - intros E. injection E as <-. discriminate. }
  destruct data as [|b|n|str|items|members]; simpl;
    try (intros E; injection E as <-; discriminate).
  destruct (lookup "price" members) as [[| |pr| | |]|]; simpl;
    try (intros E; injection E as <-; discriminate).
  destruct (lookup "currency" members) as [[| | |cu| |]|]; simpl;
    try (intros E; injection E as <-; discriminate).
  discriminate.
Qed.

End Client.
End ApiProps.

(* ================================================================== *)
(** * The properties at work on the samples *)
(* ================================================================== *)

Module Scenarios.

Import JS Spec Page Samples.
Local Open Scope string_scope.

(** ** Validation *)

Example validateField_samples :
  validateField Key.bedrooms "3" = None /\
  validateField Key.bedrooms " " = Some required_message /\
  validateField Key.bedrooms "21" <> None /\
  validateField Key.bathrooms "1.5" <> None /\
  validateField Key.living_area "1200.5" = None /\
  validateField Key.living_area "100000.1" <> None /\
  validateField Key.condition "0" <> None /\
  validateField Key.schools "Infinity" <> None.
Proof. vm_compute. repeat split; discriminate. Qed.

Lemma editing_fails : exists name, fails (formData (st editing)) name.
Proof. exists Key.bedrooms. unfold fails. vm_compute. discriminate. Qed.

Lemma submit_validates_every_field_witness :
  (exists name, fails (formData (st editing)) name) /\
  inflight (handleSubmit base no_key offline editing) = inflight editing /\
  sent (handleSubmit base no_key offline editing) = sent editing.
Proof.
  split; [exact editing_fails|].
  pose proof (ControllerProps.submit_validates_every_field
                base no_key offline editing) as H.
  cbv zeta in H. destruct H as (_ & _ & H & _).
  destruct (H editing_fails) as (I & S & _). split; assumption.
Defined.

(** ** The submission life cycle *)

Lemma reachable_submitted : reachable base no_key submitted.
Proof.
  apply (reachable_step base no_key (mount base offline) submitted
           (Submit (server priced))).
  - apply reachable_mount.
  - reflexivity.
Qed.





Lemma no_submission_while_loading_witness :
  isLoading (st submitted) = true /\
  forall e c', dispatch base no_key e submitted = Some c' ->
               sent c' = sent submitted /\
               (inflight c' = inflight submitted \/ inflight c' = []).
Proof.
  destruct (LifecycleProps.no_submission_while_loading
              base no_key submitted reachable_submitted) as (_ & _ & H).
  split; [reflexivity|]. apply H. reflexivity.
Defined.

(** ** The prediction client *)

Lemma negative_fraction_numbers : all_numbers negative_fraction.
Proof. intros name. destruct name; reflexivity. Qed.

Lemma out_of_range_numbers : all_numbers out_of_range.
Proof. intros name. destruct name; reflexivity. Qed.

Lemma sample_converts :
  Api.validateAndConvertForm SAMPLE_DATA = Return sample_payload.
Proof. reflexivity. Qed.

(** Minus one and a half bedrooms are sent as minus two, whereas
    truncation gives minus one. *)
Lemma floor_is_not_truncation :
  all_numbers negative_fraction /\
  exists rd,
    Api.validateAndConvertForm negative_fraction = Return rd /\
    ~ truncated (Number (HouseFormData.bedrooms negative_fraction))
                (Api.bedrooms rd).
Proof.
  split; [exact negative_fraction_numbers|].
  eexists. split; [reflexivity|].
  intros (q & q' & Hq & Hq' & E).
  vm_compute in Hq. vm_compute in Hq'.
  injection Hq as <-. injection Hq' as <-.
  vm_compute in E. discriminate.
Qed.

Lemma blank_is_not_a_number : not_a_number " ".
Proof. intros [x L]. discriminate. Qed.

Lemma negative_fraction_parses name :
  blank (HouseFormData.get name negative_fraction) \/
  exists x, parses_as_number (HouseFormData.get name negative_fraction) x.
Proof. right. destruct name; eexists; reflexivity. Qed.

Lemma blank_bedrooms_converts name :
  blank (HouseFormData.get name blank_bedrooms) \/
  exists x, parses_as_number (HouseFormData.get name blank_bedrooms) x.
Proof.
  destruct name; [left; reflexivity | | | |]; right; eexists; reflexivity.
Qed.

(** Two departures from the specification.  A blank field is not a
    number, yet [predict] raises no input error: it sends a request in
    which the field is zero.  And minus one and a half bedrooms are sent as
    minus two, not as the truncated minus one. *)
Lemma predict_conversion_counterexample :
  (not_a_number (HouseFormData.bedrooms blank_bedrooms) /\
   Api.predict base no_key offline blank_bedrooms <> ([], Throw input_error) /\
   exists rd,
     fst (Api.predict base no_key offline blank_bedrooms) =
       [predict_request base no_key rd] /\
     Api.bedrooms rd = S754_zero false) /\
  ((forall name, exists x,
      parses_as_number (HouseFormData.get name negative_fraction) x) /\
   exists rd,
     Api.validateAndConvertForm negative_fraction = Return rd /\
     ~ truncated (Number (HouseFormData.bedrooms negative_fraction))
                 (Api.bedrooms rd)).
Proof.
  split.
  - split; [exact blank_is_not_a_number|].
    split; [vm_compute; discriminate|].
    eexists. split; reflexivity.
  - split; [intros name; destruct name; eexists; reflexivity|].
    exact (proj2 floor_is_not_truncation).
Qed.

Lemma predict_converts_the_form_witness :
  Api.predict base no_key offline spelled_out = ([], Throw input_error) /\
  (exists rd,
     Api.validateAndConvertForm negative_fraction = Return rd /\
     rounded_down (Number "-1.5") (Api.bedrooms rd)) /\
  (exists rd,
     Api.validateAndConvertForm blank_bedrooms = Return rd /\
     Api.bedrooms rd = S754_zero false).
Proof.
  split; [|split].
  - apply (proj1 (ApiProps.predict_converts_the_form
                    base no_key offline spelled_out)).
    exists Key.bedrooms. split.
    + intros [x L]. discriminate.
    + discriminate.
  - destruct (proj2 (ApiProps.predict_converts_the_form
                       base no_key offline negative_fraction)
                negative_fraction_parses) as (rd & V & R & _).
    exists rd. split; [exact V | exact R].
  - destruct (proj2 (ApiProps.predict_converts_the_form
                       base no_key offline blank_bedrooms)
                blank_bedrooms_converts)
      as (rd & V & _ & _ & _ & _ & _ & Z).
    exists rd. split; [exact V|].
    apply (Z Key.bedrooms). reflexivity.
Defined.

(** A success response whose body is not JSON lacks a price and a
    currency, yet [predict] fails with the error of the reader, which is
    neither the format error nor a parsed result. *)
Lemma unreadable_body_is_no_format_error :
  Api.ok html_page = true /\
  lacks_price_or_currency html_page /\
  snd (Api.predict base no_key (server html_page) SAMPLE_DATA) =
    Throw (ErrorObj "SyntaxError" "Unexpected token < in JSON at position 0") /\
  snd (Api.predict base no_key (server html_page) SAMPLE_DATA) <>
    Throw format_error /\
  (forall result,
     snd (Api.predict base no_key (server html_page) SAMPLE_DATA) <>
       Return result).
Proof.
  split; [reflexivity|]. split; [|split; [|split]].
  - intros p c (members & J & _). discriminate.
  - reflexivity.
  - vm_compute. discriminate.
  - intros result. vm_compute. discriminate.
Qed.

(** The body [null] is not announced as a format error either: reading
    its price throws. *)
Example null_body_is_a_type_error :
  snd (Api.predict base no_key (server null_body) SAMPLE_DATA) =
  Throw (ErrorObj "TypeError"
           "Cannot read properties of null (reading 'price')").
Proof. reflexivity. Qed.

Lemma predict_classifies_the_answer_witness :
  snd (Api.predict base no_key (server priced) SAMPLE_DATA) =
    Return {| Api.price := of_Z 450000; Api.currency := "USD" |} /\
  snd (Api.predict base no_key (server server_error) SAMPLE_DATA) =
    Throw (new_Error "Prediction failed (HTTP 500): Internal Server Error").
Proof.
  split.
  - destruct (ApiProps.predict_classifies_the_answer
                base no_key (server priced) SAMPLE_DATA sample_payload
                sample_converts) as (_ & _ & _ & H & _).
    apply (H priced); [reflexivity | reflexivity |].
    eexists. repeat split.
  - destruct (ApiProps.predict_classifies_the_answer
                base no_key (server server_error) SAMPLE_DATA sample_payload
                sample_converts) as (_ & H & _).
    apply (H server_error); reflexivity.
Defined.

Lemma predict_checks_no_range_witness :
  fails out_of_range Key.bedrooms /\
  fails out_of_range Key.condition /\
  exists rd,
    fst (Api.predict base no_key (server priced) out_of_range) =
      [predict_request base no_key rd] /\
    Api.bedrooms rd = of_Z 50 /\ Api.condition rd = of_Z 0 /\
    snd (Api.predict base no_key (server priced) out_of_range) =
      Return {| Api.price := of_Z 450000; Api.currency := "USD" |}.
Proof.
  split; [unfold fails; vm_compute; discriminate|].
  split; [unfold fails; vm_compute; discriminate|].
  destruct (ApiProps.predict_checks_no_range
              base no_key (server priced) out_of_range out_of_range_numbers)
    as (rd & V & S & _ & R & _).
  exists rd. split; [exact S|].
  assert (E : Return rd = Return
                {| Api.bedrooms := of_Z 50; Api.bathrooms := of_Z 2;
                   Api.living_area := of_Z 1800; Api.condition := of_Z 0;
                   Api.schools := of_Z 2 |}).
  { rewrite <- V. reflexivity. }
  injection E as ->.
  split; [reflexivity|]. split; [reflexivity|].
  apply (R priced); [reflexivity | reflexivity |].
  eexists. repeat split.
Defined.

End Scenarios.

(* ================================================================== *)
(** * White space around a value *)
(* ================================================================== *)

Module TrimFacts.

Import JS JSFacts Spec Page ValidationProps.

Lemma trimStart_head s c r :
  trimStart s = String c r -> is_whitespace c = false.
Proof.
  induction s as [|a s IH]; simpl; [discriminate|].
  destruct (is_whitespace a) eqn:W; [exact IH|].
  intros H. injection H as <- _. exact W.
Qed.

Lemma trimStart_fixed c r :
  is_whitespace c = false -> trimStart (String c r) = String c r.
Proof. intros W. simpl. rewrite W. reflexivity. Qed.

(** [trimEnd] keeps a first character that is not white space. *)
Lemma trimEnd_head c r :
  is_whitespace c = false -> exists r', trimEnd (String c r) = String c r'.
Proof.
  intros W. simpl. destruct (trimEnd r) as [|a r'].
  - rewrite W. exists EmptyString. reflexivity.
  - exists (String a r'). reflexivity.
Qed.

Lemma trimEnd_idempotent s : trimEnd (trimEnd s) = trimEnd s.
Proof.
  induction s as [|c s IH]; [reflexivity|]. simpl.
  destruct (trimEnd s) as [|a r] eqn:E.
  - destruct (is_whitespace c) eqn:W; [reflexivity|].
    simpl. rewrite W. reflexivity.
  - change (trimEnd (String c (String a r))) with
      (match trimEnd (String a r) with
       | EmptyString =>
           if is_whitespace c then EmptyString else String c EmptyString
       | r' => String c r'
       end).
    rewrite IH. reflexivity.
Qed.

Lemma trim_idempotent s : trim (trim s) = trim s.
Proof.
  unfold trim. destruct (trimStart s) as [|c r] eqn:E; [reflexivity|].
  pose proof (trimStart_head s c r E) as W.
  destruct (trimEnd_head c r W) as [r' T].
  rewrite T, (trimStart_fixed c r' W), <- T.
  apply trimEnd_idempotent.
Qed.

(** [Number] does its own trimming. *)
Lemma Number_trim s : Number (trim s) = Number s.
Proof. unfold Number. rewrite trim_idempotent. reflexivity. Qed.

(** X1. White space around a value never matters to the validator: a
    value and the same value trimmed get the same answer, for every
    field. *)
Theorem validateField_ignores_outer_space (name : Key.t) (value : string) :
  validateField name (trim value) = validateField name value.
Proof.
  unfold validateField. rewrite trim_idempotent, Number_trim. reflexivity.
Qed.

(** X2. Which message the validator gives: the "required" message exactly
    when the value, trimmed, is not a numeric literal (a blank value
    included); and, for a value that parses as a number, the message of the
    field exactly when that number breaks the rule of the field. *)
Theorem validateField_chooses_the_message (name : Key.t) (value : string) :
  (validateField name value = Some required_message <->
   StrNumericLiteral (trim value) = None) /\
  (trim value = EmptyString ->
   validateField name value = Some required_message) /\
  (forall x, parses_as_number value x ->
   (validateField name value = Some (Wire.range_message name) <->
    ~ range_rule name x)).
Proof.
  split; [|split].
  - split; [|apply validateField_no_literal].
    intros H.
    destruct (StrNumericLiteral (trim value)) as [x|] eqn:L; [|reflexivity].
    rewrite (validateField_literal name value x L) in H.
    unfold required_message in H.
    destruct name;
      match type of H with (if ?b then _ else _) = _ => destruct b end;
      discriminate.
  - intros E. apply validateField_no_literal. rewrite E. reflexivity.
  - intros x L. rewrite (validateField_literal name value x L).
    pose proof (StrNumericLiteral_not_nan _ _ L) as Hnan.
    assert (D : forall b : bool,
               (b = false <-> range_rule name x) ->
               ((if b then Some (Wire.range_message name) else None) =
                Some (Wire.range_message name) <-> ~ range_rule name x)).
    { intros b [B1 B2]. destruct b.
      - split; [|reflexivity]. intros _ R. apply B2 in R. discriminate.
      - split; [discriminate|]. intros R. destruct R. apply B1. reflexivity. }
    destruct name; cbn [Wire.range_message range_rule] in D |- *; apply D;
      first [ apply outside_integers_spec
            | apply (outside_range_spec x 0 100000 Hnan) ].
Qed.

End TrimFacts.

(* ================================================================== *)
(** * Editing the form *)
(* ================================================================== *)

Module EditingProps.

Import JS Spec Page.

Lemma get_set_same name value d :
  HouseFormData.get name (HouseFormData.set name value d) = value.
Proof. destruct name; reflexivity. Qed.

Lemma get_set_other name other value d :
  other <> name ->
  HouseFormData.get other (HouseFormData.set name value d) =
  HouseFormData.get other d.
Proof. intros H. destruct name, other; try reflexivity; congruence. Qed.

Lemma errors_set_same name v e :
  FormErrors.get name (FormErrors.set name v e) = v.
Proof. destruct name; reflexivity. Qed.

Lemma errors_set_other name other v e :
  other <> name ->
  FormErrors.get other (FormErrors.set name v e) = FormErrors.get other e.
Proof. intros H. destruct name, other; try reflexivity; congruence. Qed.

(** X3. A change of one input stores the typed value in that field and
    leaves the four others as they are; it drops the message shown for that
    field, whatever the new value (nothing is validated on change), and
    keeps the messages of the others; it clears the prediction and the API
    error, and touches neither the loading flag nor the health status. *)
Theorem change_edits_one_field (name : Key.t) (value : string) (s : State) :
  let s' := handleInputChange name value s in
  HouseFormData.get name (formData s') = value /\
  (forall other, other <> name ->
     HouseFormData.get other (formData s') =
     HouseFormData.get other (formData s)) /\
  is_set (FormErrors.get name (errors s')) = false /\
  (forall other, other <> name ->
     FormErrors.get other (errors s') = FormErrors.get other (errors s)) /\
  prediction s' = None /\ apiError s' = EmptyString /\
  isLoading s' = isLoading s /\ isHealthy s' = isHealthy s.
Proof.
  intros s'. subst s'. unfold handleInputChange.
  destruct (is_set (FormErrors.get name (errors s))) eqn:E;
    destruct (apiError s) eqn:A; destruct (prediction s) eqn:P;
    cbn [formData errors prediction apiError isLoading isHealthy
         setFormData setErrors setApiError setPrediction truthy];
    rewrite ?A, ?P, ?errors_set_same, ?E;
    (split; [apply get_set_same|]);
    (split; [intros other H; apply get_set_other, H|]);
    (split; [reflexivity|]);
    (split; [intros other H; rewrite ?errors_set_other by exact H;
             reflexivity|]);
    repeat split; reflexivity.
Qed.

(** X4. Edits compose as writes to independent cells: two changes of the
    same input amount to the last one, and changes of two different inputs
    give the same state in either order. *)
Theorem changes_compose (s : State) (name other : Key.t) (v w : string) :
  handleInputChange name w (handleInputChange name v s) =
    handleInputChange name w s /\
  (other <> name ->
   handleInputChange other w (handleInputChange name v s) =
     handleInputChange name v (handleInputChange other w s)).
Proof.
  destruct s as [[d1 d2 d3 d4 d5] [e1 e2 e3 e4 e5] l p a h].
  split.
  - destruct name;
      try (match goal with |- context [Key.bedrooms] =>
             destruct e1 as [[|? ?]|] end);
      try (match goal with |- context [Key.bathrooms] =>
             destruct e2 as [[|? ?]|] end);
      try (match goal with |- context [Key.living_area] =>
             destruct e3 as [[|? ?]|] end);
      try (match goal with |- context [Key.condition] =>
             destruct e4 as [[|? ?]|] end);
      try (match goal with |- context [Key.schools] =>
             destruct e5 as [[|? ?]|] end);
      destruct a, p; reflexivity.
  - intros H. destruct name, other; try congruence;
      try (match goal with |- context [Key.bedrooms] =>
             destruct e1 as [[|? ?]|] end);
      try (match goal with |- context [Key.bathrooms] =>
             destruct e2 as [[|? ?]|] end);
      try (match goal with |- context [Key.living_area] =>
             destruct e3 as [[|? ?]|] end);
      try (match goal with |- context [Key.condition] =>
             destruct e4 as [[|? ?]|] end);
      try (match goal with |- context [Key.schools] =>
             destruct e5 as [[|? ?]|] end);
      destruct a, p; reflexivity.
Qed.

Section Frame.

Variables API_BASE API_KEY : string.

(** X5. The values of the form are written by a change of input and by the
    sample action only: a key press, a submission, the completion of a
    prediction and the completion of the health check leave the five fields
    as they are. *)
Theorem only_edits_write_the_form (e : event) (c c' : config) :
  dispatch API_BASE API_KEY e c = Some c' ->
  (forall name value, e <> Change name value) ->
  e <> TrySample ->
  formData (st c') = formData (st c).
Proof.
  intros D NC NS.
  assert (S : forall net,
             formData (st (Page.handleSubmit API_BASE API_KEY net c)) =
             formData (st c)).
  { intros net.
    destruct (snd (validateForm (st c))) eqn:V.
    - rewrite (ControllerProps.handleSubmit_valid API_BASE API_KEY net c V).
      reflexivity.
    - rewrite (ControllerProps.handleSubmit_invalid API_BASE API_KEY net c V).
      reflexivity. }
  destruct e as [name value|key net|net| |i|]; simpl in D.
  - destruct (NC name value). reflexivity.
  - injection D as <-. unfold handleKeyDown.
    destruct (_ && _); [apply S | reflexivity].
  - destruct (isLoading (st c)); [discriminate|].
    injection D as <-. apply S.
  - destruct NS. reflexivity.
  - destruct (nth_error (inflight c) i) as [o|]; [|discriminate].
    injection D as <-. destruct o; reflexivity.
  - destruct (health c) as [[b|t]|]; [| |discriminate];
      injection D as <-; reflexivity.
Qed.

(** X6. An edit made while a prediction is pending neither cancels it nor
    hides its result: when the call completes with a result, the result is
    displayed, beside the form as edited. *)
Theorem edit_in_flight_keeps_the_result (c : config) (name : Key.t)
    (value : string) (result : Api.PredictionResponse) :
  inflight c = [Return result] ->
  exists c1 c2,
    dispatch API_BASE API_KEY (Change name value) c = Some c1 /\
    dispatch API_BASE API_KEY (PredictSettled 0) c1 = Some c2 /\
    prediction (st c2) = Some result /\
    isLoading (st c2) = false /\
    formData (st c2) = HouseFormData.set name value (formData (st c)) /\
    inflight c2 = [].
Proof.
  intros I. eexists _, _. split; [reflexivity|].
  simpl. rewrite I. simpl. split; [reflexivity|].
  unfold handleInputChange.
  destruct (is_set _), (truthy _), (prediction (st c));
    repeat split; reflexivity.
Qed.

End Frame.

End EditingProps.

(* ================================================================== *)
(** * What goes on the wire *)
(* ================================================================== *)

Module WireProps.

Import JS JSFacts Spec Page ValidationProps Wire.
Local Open Scope string_scope.

(** A value the validator accepts parses as a number within the rule. *)
Lemma validateField_accepted name value :
  validateField name value = None ->
  range_rule name (Number value).
Proof.
  intros H.
  destruct (StrNumericLiteral (trim value)) as [x|] eqn:L.
  - rewrite (parsed_number value x L).
    rewrite (validateField_literal name value x L) in H.
    pose proof (StrNumericLiteral_not_nan _ _ L) as Hnan.
    destruct name; simpl;
      match type of H with (if ?b then _ else _) = _ =>
        destruct b eqn:B; [discriminate|] end;
      first [ apply outside_integers_spec; exact B
            | apply (outside_range_spec x 0 100000 Hnan); exact B ].
  - rewrite (validateField_no_literal name value L) in H. discriminate.
Qed.

(** [Math.floor] does nothing to an integer. *)
Lemma Math_floor_integer x : Number_isInteger x = true -> Math_floor x = x.
Proof.
  destruct x as [s|s| |s m e]; simpl; try reflexivity.
  destruct (0 <=? e)%Z; [reflexivity|]. intros H. rewrite H. reflexivity.
Qed.

Lemma integer_in_floor lo hi x : integer_in lo hi x -> Math_floor x = x.
Proof.
  intros (q & n & V & E & _). apply Math_floor_integer.
  apply isInteger_value. exists q, n. split; assumption.
Qed.

Lemma range_rule_not_nan name x : range_rule name x -> isNaN x = false.
Proof.
  intros R.
  assert (V : exists q, value x = Some q).
  { destruct name; simpl in R; unfold integer_in, number_in in R;
      [ destruct R as (q & n & V & _) | destruct R as (q & n & V & _)
      | destruct R as (q & V & _) | destruct R as (q & n & V & _)
      | destruct R as (q & n & V & _) ];
      exists q; exact V. }
  destruct V as [q V]. apply (value_not_nan x q V).
Qed.

Lemma passes_is_accepted form name :
  ~ fails form name ->
  validateField name (HouseFormData.get name form) = None.
Proof.
  unfold fails. intros H.
  destruct (validateField name _); [exfalso; apply H; discriminate|].
  reflexivity.
Qed.

Lemma passing_form_is_in_range form :
  (forall name, ~ fails form name) -> valid_payload (parsed_payload form).
Proof.
  intros H.
  pose proof (validateField_accepted _ _
                (passes_is_accepted form _ (H Key.bedrooms))) as R1.
  pose proof (validateField_accepted _ _
                (passes_is_accepted form _ (H Key.bathrooms))) as R2.
  pose proof (validateField_accepted _ _
                (passes_is_accepted form _ (H Key.living_area))) as R3.
  pose proof (validateField_accepted _ _
                (passes_is_accepted form _ (H Key.condition))) as R4.
  pose proof (validateField_accepted _ _
                (passes_is_accepted form _ (H Key.schools))) as R5.
  repeat split; assumption.
Qed.

Lemma in_range_converts form :
  valid_payload (parsed_payload form) ->
  Api.validateAndConvertForm form = Return (parsed_payload form).
Proof.
  intros (R1 & R2 & R3 & R4 & R5).
  cbn [parsed_payload Api.bedrooms Api.bathrooms Api.living_area
       Api.condition Api.schools] in R1, R2, R3, R4, R5.
  unfold Api.validateAndConvertForm, parsed_payload.
  rewrite (range_rule_not_nan _ _ R1), (range_rule_not_nan _ _ R2),
    (range_rule_not_nan _ _ R3), (range_rule_not_nan _ _ R4),
    (range_rule_not_nan _ _ R5).
  cbn [orb].
  rewrite (integer_in_floor _ _ _ R1), (integer_in_floor _ _ _ R2),
    (integer_in_floor _ _ _ R4), (integer_in_floor _ _ _ R5).
  reflexivity.
Qed.

(** X7. A form that passes the validation of the page converts without
    any loss: [validateAndConvertForm] does not throw, rounding down
    changes none of the four counters, so the payload holds exactly the
    numbers the fields parse as, and these meet the field specifications of
    the service. *)
Theorem validated_form_converts_exactly (form : HouseFormData.t) :
  (forall name, ~ fails form name) ->
  Api.validateAndConvertForm form = Return (parsed_payload form) /\
  valid_payload (parsed_payload form).
Proof.
  intros H. pose proof (passing_form_is_in_range form H) as P.
  split; [apply in_range_converts, P | exact P].
Qed.

Section Wire.

Variables API_BASE API_KEY : string.

Lemma checkHealth_settles net :
  exists healthy,
    Api.checkHealth API_BASE net =
    ([health_request API_BASE], Return healthy).
Proof.
  unfold Api.checkHealth.
  match goal with
  | |- context [Api.fetch ?n ?r] => change r with (health_request API_BASE)
  end.
  unfold Api.fetch.
  destruct (net (health_request API_BASE)) as [r|t]; simpl;
    [|exists false; reflexivity].
  destruct (Api.ok r); simpl; [|exists false; reflexivity].
  destruct (Api.json r) as [data|t]; simpl; [|exists false; reflexivity].
  destruct data; simpl; eexists; reflexivity.
Qed.

(** X8. [predict] never retries: whatever the network answers, it sends
    exactly one request when the form converts, and none at all when it
    does not, in which case it fails with the input error. *)
Theorem predict_sends_once_or_never (net : Api.network)
    (form : HouseFormData.t) :
  (exists rd,
     Api.validateAndConvertForm form = Return rd /\
     fst (Api.predict API_BASE API_KEY net form) =
       [predict_request API_BASE API_KEY rd]) \/
  (Api.validateAndConvertForm form = Throw input_error /\
   Api.predict API_BASE API_KEY net form = ([], Throw input_error)).
Proof.
  destruct (Api.validateAndConvertForm form) as [rd|t] eqn:V.
  - left. exists rd. split; [reflexivity|].
    apply (ApiProps.predict_sends API_BASE API_KEY net form rd V).
  - right.
    assert (t = input_error).
    { unfold Api.validateAndConvertForm in V.
      destruct (_ || _) in V; [|discriminate].
      injection V as <-. reflexivity. }
    subst t. split; [reflexivity|].
    apply (ApiProps.predict_input_error API_BASE API_KEY net form _ V).
Qed.

(** X9. Every request the mounted component ever sends is one the service
    expects: the health probe, or a prediction request whose payload meets
    the field specifications (integers within range for the four counters,
    a number within range for the living area). *)
Theorem only_expected_requests_are_sent (c : config) :
  reachable API_BASE API_KEY c ->
  Forall (expected_request API_BASE API_KEY) (sent c).
Proof.
  induction 1 as [net|c c' e R IH D].
  - unfold mount. destruct (checkHealth_settles net) as [healthy ->].
    cbn [sent]. constructor; [left; reflexivity | constructor].
  - assert (S : forall net,
               Forall (expected_request API_BASE API_KEY)
                 (sent (Page.handleSubmit API_BASE API_KEY net c))).
    { intros net.
      destruct (snd (validateForm (st c))) eqn:V.
      - rewrite (ControllerProps.handleSubmit_valid API_BASE API_KEY net c V).
        cbn [sent]. apply Forall_app. split; [exact IH|].
        pose proof (proj1 (ControllerProps.validateForm_result (st c)) V)
          as V'.
        pose proof (passing_form_is_in_range (formData (st c)) V') as P.
        pose proof (in_range_converts (formData (st c)) P) as C.
        rewrite (ApiProps.predict_sends API_BASE API_KEY net _ _ C).
        constructor; [|constructor].
        right. eexists. split; [reflexivity | exact P].
      - rewrite (ControllerProps.handleSubmit_invalid API_BASE API_KEY net c V).
        exact IH. }
    destruct e as [name value|key net|net| |i|]; simpl in D.
    + injection D as <-. exact IH.
    + injection D as <-. unfold handleKeyDown.
      destruct (_ && _); [apply S | exact IH].
    + destruct (isLoading (st c)); [discriminate|].
      injection D as <-. apply S.
    + destruct (isLoading (st c)); [discriminate|].
      injection D as <-. exact IH.
    + destruct (nth_error (inflight c) i); [|discriminate].
      injection D as <-. exact IH.
    + destruct (health c) as [[b|t]|]; [| |discriminate];
        injection D as <-; exact IH.
Qed.

End Wire.

End WireProps.

(* ================================================================== *)
(** * Failures of the client at its edges *)
(* ================================================================== *)

Module ClientEdgeProps.

Import JS Spec.
Local Open Scope string_scope.

Section Edges.

Variables API_BASE API_KEY : string.
Variable net : Api.network.

Ltac start V rd :=
  unfold Api.predict; rewrite V;
  unfold Api.lift at 1; unfold Api.bind at 1; cbv iota beta;
  match goal with
  | |- context [Api.fetch ?n ?r] =>
      change r with (predict_request API_BASE API_KEY rd)
  end;
  unfold Api.fetch.

(** What the [catch] block lets out is an [Error] that is not named
    [AbortError]. *)
Lemma predict_catch_plain t e :
  snd (Api.predict_catch t) = Throw e ->
  exists name message, e = ErrorObj name message /\ name <> "AbortError".
Proof.
  destruct t as [name message|]; simpl.
  - destruct (name =? "AbortError") eqn:A; simpl; intros H; injection H as <-.
    + exists "Error", Api.timeout_message. split; [reflexivity|discriminate].
    + exists name, message. split; [reflexivity|].
      apply String.eqb_neq, A.
  - intros H. injection H as <-.
    exists "Error", Api.unexpected_message. split; [reflexivity|discriminate].
Qed.

Ltac own_error :=
  intros H; injection H as <-;
  eexists _, _; split; [reflexivity|discriminate].

(** X10. Whatever goes wrong, [predict] rejects with an [Error] instance,
    and never with one named [AbortError]: a thrown value that is no
    [Error] is replaced, an abort is reported as the timeout error. *)
Theorem predict_rejects_with_plain_errors (form : HouseFormData.t)
    (e : thrown) :
  snd (Api.predict API_BASE API_KEY net form) = Throw e ->
  exists name message, e = ErrorObj name message /\ name <> "AbortError".
Proof.
  destruct (Api.validateAndConvertForm form) as [rd|t] eqn:V.
  2:{ rewrite (ApiProps.predict_input_error API_BASE API_KEY net form t V).
      unfold Api.validateAndConvertForm in V.
      destruct (_ || _) in V; [|discriminate].
      injection V as <-. simpl. own_error. }
  start V rd.
  destruct (net (predict_request API_BASE API_KEY rd)) as [r|t]; simpl.
  2:{ destruct (Api.predict_catch t) as [l o] eqn:C. simpl. intros ->.
      apply (predict_catch_plain t). rewrite C. reflexivity. }
  destruct (Api.ok r); simpl; [|own_error].
  destruct (Api.json r) as [data|t]; simpl.
  2:{ destruct (Api.predict_catch t) as [l o] eqn:C. simpl. intros ->.
      apply (predict_catch_plain t). rewrite C. reflexivity. }
  destruct data as [|b|n|str|items|members]; simpl; try own_error.
  destruct (lookup "price" members) as [[| |pr| | |]|]; simpl;
    try own_error.
  destruct (lookup "currency" members) as [[| | |cu| |]|]; simpl;
    try own_error.
  discriminate.
Qed.

(** X11. A failure of the network passes through [predict] unchanged: when
    [fetch] rejects with an [Error] that is not an abort, [predict] rejects
    with that very error; when it rejects with a value that is no [Error],
    [predict] rejects with its own "unexpected error". *)
Theorem network_failure_passes_through (form : HouseFormData.t)
    (rd : Api.PredictionRequest) :
  Api.validateAndConvertForm form = Return rd ->
  (forall name message,
     net (predict_request API_BASE API_KEY rd) =
       Throw (ErrorObj name message) ->
     name <> "AbortError" ->
     snd (Api.predict API_BASE API_KEY net form) =
       Throw (ErrorObj name message)) /\
  (net (predict_request API_BASE API_KEY rd) = Throw NonError ->
   snd (Api.predict API_BASE API_KEY net form) =
     Throw (new_Error Api.unexpected_message)).
Proof.
  intros V. split.
  - intros name message N A. start V rd. rewrite N. simpl.
    apply String.eqb_neq in A. rewrite A. reflexivity.
  - intros N. start V rd. rewrite N. reflexivity.
Qed.

(** X12. The structure check of [predict] does not cover the body [null]:
    for a success response whose JSON body is [null], reading the price
    throws, and [predict] rejects with that [TypeError], not with the
    format error. *)
Theorem null_body_escapes_the_check (form : HouseFormData.t)
    (rd : Api.PredictionRequest) (r : Api.Response) :
  Api.validateAndConvertForm form = Return rd ->
  net (predict_request API_BASE API_KEY rd) = Return r ->
  Api.ok r = true ->
  Api.json r = Return JNull ->
  (exists message,
     snd (Api.predict API_BASE API_KEY net form) =
       Throw (ErrorObj "TypeError" message)) /\
  snd (Api.predict API_BASE API_KEY net form) <> Throw format_error.
Proof.
  intros V N O J.
  assert (E : snd (Api.predict API_BASE API_KEY net form) =
              Throw (ErrorObj "TypeError"
                       "Cannot read properties of null (reading 'price')")).
  { start V rd. rewrite N. simpl. rewrite O. simpl. rewrite J. reflexivity. }
  split; [eexists; exact E|]. rewrite E. discriminate.
Qed.

(** X13. The API key travels with prediction requests only: the health
    probe carries no header at all, and a prediction request carries the
    content type, followed by the key exactly when one is configured. *)
Theorem api_key_travels_with_predictions (form : HouseFormData.t) :
  (forall req, In req (fst (Api.checkHealth API_BASE net)) ->
     Api.headers req = []) /\
  (forall req, In req (fst (Api.predict API_BASE API_KEY net form)) ->
     Api.headers req =
     ("Content-Type", "application/json")
       :: match API_KEY with
          | EmptyString => []
          | _ => [("x-api-key", API_KEY)]
          end).
Proof.
  split.
  - intros req I.
    destruct (WireProps.checkHealth_settles API_BASE net) as [healthy E].
    rewrite E in I. destruct I as [<-|[]]. reflexivity.
  - intros req I.
    destruct (Api.validateAndConvertForm form) as [rd|t] eqn:V.
    + rewrite (ApiProps.predict_sends API_BASE API_KEY net form rd V) in I.
      destruct I as [<-|[]]. destruct API_KEY; reflexivity.
    + rewrite (ApiProps.predict_input_error API_BASE API_KEY net form t V) in I.
      destruct I.
Qed.

End Edges.

End ClientEdgeProps.

(* ================================================================== *)
(** * What the user sees *)
(* ================================================================== *)

Module ViewProps.

Import JS Spec Page PageView Runs.
Local Open Scope string_scope.

Section Views.

Variables API_BASE API_KEY : string.

(** X14. While a prediction is pending the page shows it and nothing
    stale: in every configuration the component can reach with the loading
    flag set, the submit button reads "Predicting...", both buttons are
    disabled, and neither the error panel nor the result panel is
    displayed. *)
Theorem loading_view_shows_nothing_stale (c : config) :
  reachable API_BASE API_KEY c ->
  isLoading (st c) = true ->
  let v := render (st c) in
  submitLabel v = "Predicting..." /\
  submitDisabled v = true /\ sampleDisabled v = true /\
  errorPanel v = None /\ resultPanel v = None.
Proof.
  intros R L v. subst v.
  destruct (LifecycleProps.reachable_invariant API_BASE API_KEY c R) as [_ I].
  destruct (inflight c) as [|o [|o' l]]; [congruence | | destruct I].
  destruct I as (_ & P & A).
  unfold render; cbn [submitLabel submitDisabled sampleDisabled errorPanel
                      resultPanel].
  rewrite L, P, A. repeat split; reflexivity.
Qed.





(** Every run from a mount ends in a reachable configuration. *)
Lemma run_reachable events : forall c c',
  reachable API_BASE API_KEY c ->
  Runs.run API_BASE API_KEY events c = Some c' ->
  reachable API_BASE API_KEY c'.
Proof.
  induction events as [|e rest IH]; intros c c' R H; simpl in H.
  - injection H as <-. exact R.
  - destruct (dispatch API_BASE API_KEY e c) as [c1|] eqn:D; [|discriminate].
    apply (IH c1 c'); [|exact H].
    apply (reachable_step API_BASE API_KEY c c1 e R D).
Qed.

End Views.

End ViewProps.

(* ================================================================== *)
(** * From the submit button to the panel *)
(* ================================================================== *)

Module EndToEndProps.

Import JS Spec Page PageView Wire.
Local Open Scope string_scope.

Section EndToEnd.

Variables API_BASE API_KEY : string.

(** An idle component whose form passes validation starts one call on
    submission, with the parsed payload. *)
Lemma submit_starts_the_call net c :
  reachable API_BASE API_KEY c ->
  isLoading (st c) = false ->
  (forall name, ~ fails (formData (st c)) name) ->
  exists c1,
    dispatch API_BASE API_KEY (Submit net) c = Some c1 /\
    inflight c1 = [snd (Api.predict API_BASE API_KEY net (formData (st c)))] /\
    sent c1 = (sent c ++ [predict_request API_BASE API_KEY
                            (parsed_payload (formData (st c)))])%list /\
    prediction (st c1) = None /\ apiError (st c1) = EmptyString.
Proof.
  intros R L H.
  destruct (LifecycleProps.reachable_invariant API_BASE API_KEY c R) as [_ I].
  assert (E : inflight c = []).
  { destruct (inflight c) as [|o [|o' l]]; [reflexivity| |destruct I].
    destruct I as [I _]. congruence. }
  pose proof (proj2 (ControllerProps.validateForm_result (st c)) H) as V.
  pose proof (WireProps.in_range_converts _
                (WireProps.passing_form_is_in_range _ H)) as C.
  eexists. simpl. rewrite L. split; [reflexivity|].
  rewrite (ControllerProps.handleSubmit_valid API_BASE API_KEY net c V).
  cbn [inflight sent st]. rewrite E.
  rewrite (ApiProps.predict_sends API_BASE API_KEY net _ _ C).
  repeat split; reflexivity.
Qed.

(** X16. From the button to the result panel: when an idle component
    whose form passes validation is submitted and the service answers its
    request with a success status, a numeric price and a string currency,
    the completion of the call leaves the component idle with that result
    set and no error panel, and the result panel is what [formatCurrency]
    makes of the price and the currency.  If the currency is empty (USD is
    used) or a well-formed code of three letters, the page is displayed
    with the amount in that currency; for any other currency string
    [formatCurrency] throws a [RangeError] and nothing is displayed. *)
Theorem priced_answer_reaches_the_panel (net : Api.network) (c : config)
    (r : Api.Response) (p : number) (cu : string) :
  reachable API_BASE API_KEY c ->
  isLoading (st c) = false ->
  (forall name, ~ fails (formData (st c)) name) ->
  net (predict_request API_BASE API_KEY (parsed_payload (formData (st c))))
    = Return r ->
  Api.ok r = true ->
  has_price_and_currency r p cu ->
  exists c1 c2,
    dispatch API_BASE API_KEY (Submit net) c = Some c1 /\
    dispatch API_BASE API_KEY (PredictSettled 0) c1 = Some c2 /\
    prediction (st c2) = Some {| Api.price := p; Api.currency := cu |} /\
    resultPanel (render (st c2)) = Some (formatCurrency p cu) /\
    errorPanel (render (st c2)) = None /\
    submitDisabled (render (st c2)) = false /\
    inflight c2 = [] /\
    (well_formed_code (or_USD cu) = true ->
     mounted (st c2) = Return (render (st c2)) /\
     resultPanel (render (st c2)) =
       Some (Return {| amount := p; code := to_upper (or_USD cu) |})) /\
    (well_formed_code (or_USD cu) = false ->
     exists message,
       mounted (st c2) = Throw (ErrorObj "RangeError" message)).
Proof.
  intros R L H N O P.
  destruct (submit_starts_the_call net c R L H) as (c1 & D & I & _ & _ & A).
  pose proof (WireProps.in_range_converts _
                (WireProps.passing_form_is_in_range _ H)) as C.
  rewrite (ApiProps.predict_success API_BASE API_KEY net _ _ r p cu C N O P)
    in I.
  exists c1. eexists. split; [exact D|].
  simpl. rewrite I. simpl. split; [reflexivity|].
  split; [reflexivity|].
  unfold mounted, render.
  cbn -[formatCurrency well_formed_code or_USD to_upper].
  rewrite A.
  split; [reflexivity|]. split; [reflexivity|]. split; [reflexivity|].
  split; [reflexivity|].
  unfold formatCurrency. split.
  - intros W. rewrite W. split; reflexivity.
  - intros W. rewrite W. eexists. reflexivity.
Qed.

(** X17. From the button to the error panel: under the same conditions,
    when the service answers with a non-success status, the completion of
    the call leaves the component idle, with no result panel and an error
    panel that reads "Prediction failed (HTTP status): " followed by the
    text of the response, or by "Unknown error" when that text cannot be
    read. *)
Theorem http_failure_reaches_the_panel (net : Api.network) (c : config)
    (r : Api.Response) :
  reachable API_BASE API_KEY c ->
  isLoading (st c) = false ->
  (forall name, ~ fails (formData (st c)) name) ->
  net (predict_request API_BASE API_KEY (parsed_payload (formData (st c))))
    = Return r ->
  Api.ok r = false ->
  exists c1 c2,
    dispatch API_BASE API_KEY (Submit net) c = Some c1 /\
    dispatch API_BASE API_KEY (PredictSettled 0) c1 = Some c2 /\
    errorPanel (render (st c2)) =
      Some ("Prediction failed (HTTP " ++ digits (Api.status r) ++ "): "
              ++ match Api.text r with
                 | Return body => body
                 | Throw _ => "Unknown error"
                 end) /\
    resultPanel (render (st c2)) = None /\
    submitDisabled (render (st c2)) = false /\
    inflight c2 = [].
Proof.
  intros R L H N O.
  destruct (submit_starts_the_call net c R L H) as (c1 & D & I & _ & P & _).
  pose proof (WireProps.in_range_converts _
                (WireProps.passing_form_is_in_range _ H)) as C.
  assert (E : snd (Api.predict API_BASE API_KEY net (formData (st c))) =
              Throw (new_Error (Api.http_message (Api.status r)
                                  (Api.text_or_unknown r)))).
  { unfold Api.predict. rewrite C.
    unfold Api.lift at 1; unfold Api.bind at 1; cbv iota beta.
    match goal with
    | |- context [Api.fetch ?n ?q] =>
        change q with (predict_request API_BASE API_KEY
                         (parsed_payload (formData (st c))))
    end.
    unfold Api.fetch. rewrite N. simpl. rewrite O. reflexivity. }
  rewrite E in I.
  exists c1. eexists. split; [exact D|].
  simpl. rewrite I. simpl. split; [reflexivity|].
  unfold render; cbn [resultPanel errorPanel submitDisabled].
  simpl. rewrite P. repeat split; reflexivity.
Qed.

End EndToEnd.

End EndToEndProps.

(* ================================================================== *)
(** * More of the properties at work on the samples *)
(* ================================================================== *)

Module MoreScenarios.

Import JS Spec Page PageView Wire Samples.
Local Open Scope string_scope.

Lemma twenty_one_is_out_of_range : ~ range_rule Key.bedrooms (of_Z 21).
Proof.
  intros (q & n & V & E & B). vm_compute in V. injection V as <-.
  unfold Qeq in E. simpl in E. lia.
Qed.

Lemma validateField_chooses_the_message_witness :
  validateField Key.bedrooms "abc" = Some required_message /\
  validateField Key.bedrooms "21" = Some (range_message Key.bedrooms) /\
  StrNumericLiteral (trim " ") = None.
Proof.
  split; [|split].
  - apply (proj2 (proj1 (TrimFacts.validateField_chooses_the_message
                           Key.bedrooms "abc"))).
    reflexivity.
  - apply (proj2 (proj2 (proj2 (TrimFacts.validateField_chooses_the_message
                                  Key.bedrooms "21")) (of_Z 21)
                    (eq_refl : parses_as_number "21" (of_Z 21)))).
    exact twenty_one_is_out_of_range.
  - apply (proj1 (proj1 (TrimFacts.validateField_chooses_the_message
                           Key.bedrooms " "))).
    reflexivity.
Defined.

Lemma changes_compose_witness :
  handleInputChange Key.bathrooms "1"
    (handleInputChange Key.bedrooms "4" initial) =
  handleInputChange Key.bedrooms "4"
    (handleInputChange Key.bathrooms "1" initial).
Proof.
  apply (proj2 (EditingProps.changes_compose initial Key.bedrooms
                  Key.bathrooms "4" "1")).
  discriminate.
Defined.

Lemma only_edits_write_the_form_witness :
  formData (st submitted) = formData (st (mount base offline)).
Proof.
  apply (EditingProps.only_edits_write_the_form base no_key
           (Submit (server priced)) (mount base offline) submitted).
  - reflexivity.
  - intros name value. discriminate.
  - discriminate.
Defined.

Lemma edit_in_flight_keeps_the_result_witness :
  exists c1 c2,
    dispatch base no_key (Change Key.bedrooms "4") submitted = Some c1 /\
    dispatch base no_key (PredictSettled 0) c1 = Some c2 /\
    prediction (st c2) =
      Some {| Api.price := of_Z 450000; Api.currency := "USD" |} /\
    isLoading (st c2) = false /\
    formData (st c2) =
      HouseFormData.set Key.bedrooms "4" (formData (st submitted)) /\
    inflight c2 = [].
Proof.
  apply (EditingProps.edit_in_flight_keeps_the_result base no_key submitted
           Key.bedrooms "4").
  reflexivity.
Defined.

Lemma sample_passes : forall name, ~ fails SAMPLE_DATA name.
Proof. intros name C. apply C. destruct name; reflexivity. Qed.

Lemma initial_passes :
  forall name, ~ fails (formData (st (mount base offline))) name.
Proof. intros name C. apply C. destruct name; reflexivity. Qed.

Lemma validated_form_converts_exactly_witness :
  Api.validateAndConvertForm SAMPLE_DATA = Return (parsed_payload SAMPLE_DATA)
  /\ valid_payload (parsed_payload SAMPLE_DATA).
Proof.
  apply (WireProps.validated_form_converts_exactly SAMPLE_DATA).
  exact sample_passes.
Defined.

Lemma only_expected_requests_are_sent_witness :
  Forall (expected_request base no_key) (sent submitted).
Proof.
  apply (WireProps.only_expected_requests_are_sent base no_key submitted).
  exact Scenarios.reachable_submitted.
Defined.

Lemma predict_rejects_with_plain_errors_witness :
  exists name message,
    ErrorObj "TypeError" "Failed to fetch" = ErrorObj name message /\
    name <> "AbortError".
Proof.
  apply (ClientEdgeProps.predict_rejects_with_plain_errors base no_key
           offline SAMPLE_DATA).
  reflexivity.
Defined.

Lemma network_failure_passes_through_witness :
  snd (Api.predict base no_key offline SAMPLE_DATA) =
  Throw (ErrorObj "TypeError" "Failed to fetch").
Proof.
  apply (proj1 (ClientEdgeProps.network_failure_passes_through base no_key
                  offline SAMPLE_DATA sample_payload
                  Scenarios.sample_converts)).
  - reflexivity.
  - discriminate.
Defined.

Lemma null_body_escapes_the_check_witness :
  (exists message,
     snd (Api.predict base no_key (server null_body) SAMPLE_DATA) =
       Throw (ErrorObj "TypeError" message)) /\
  snd (Api.predict base no_key (server null_body) SAMPLE_DATA) <>
    Throw format_error.
Proof.
  apply (ClientEdgeProps.null_body_escapes_the_check base no_key
           (server null_body) SAMPLE_DATA sample_payload null_body
           Scenarios.sample_converts);
    reflexivity.
Defined.

Lemma api_key_travels_with_predictions_witness :
  Api.headers (predict_request base "secret" sample_payload) =
  [("Content-Type", "application/json"); ("x-api-key", "secret")].
Proof.
  apply (proj2 (ClientEdgeProps.api_key_travels_with_predictions
                  base "secret" offline SAMPLE_DATA)).
  left. reflexivity.
Defined.

Lemma loading_view_shows_nothing_stale_witness :
  let v := render (st submitted) in
  submitLabel v = "Predicting..." /\
  submitDisabled v = true /\ sampleDisabled v = true /\
  errorPanel v = None /\ resultPanel v = None.
Proof.
  apply (ViewProps.loading_view_shows_nothing_stale base no_key submitted).
  - exact Scenarios.reachable_submitted.
  - reflexivity.
Defined.


Lemma priced_has_price : has_price_and_currency priced (of_Z 450000) "USD".
Proof. eexists. repeat split. Qed.

Lemma priced_in_words_has_price :
  has_price_and_currency priced_in_words (of_Z 450000) "dollars".
Proof. eexists. repeat split. Qed.

Lemma priced_answer_reaches_the_panel_witness :
  (exists c1 c2,
     dispatch base no_key (Submit (server priced)) (mount base offline)
       = Some c1 /\
     dispatch base no_key (PredictSettled 0) c1 = Some c2 /\
     resultPanel (render (st c2)) =
       Some (Return {| amount := of_Z 450000; code := "USD" |}) /\
     mounted (st c2) = Return (render (st c2))) /\
  (exists c1 c2,
     dispatch base no_key (Submit (server priced_in_words))
       (mount base offline) = Some c1 /\
     dispatch base no_key (PredictSettled 0) c1 = Some c2 /\
     exists message,
       mounted (st c2) = Throw (ErrorObj "RangeError" message)).
Proof.
  split.
  - destruct (EndToEndProps.priced_answer_reaches_the_panel base no_key
                (server priced) (mount base offline) priced
                (of_Z 450000) "USD"
                (reachable_mount base no_key offline) eq_refl
                initial_passes eq_refl eq_refl priced_has_price)
      as (c1 & c2 & D1 & D2 & _ & _ & _ & _ & _ & W & _).
    exists c1, c2. split; [exact D1|]. split; [exact D2|].
    destruct (W eq_refl) as [M T]. split; [exact T | exact M].
  - destruct (EndToEndProps.priced_answer_reaches_the_panel base no_key
                (server priced_in_words) (mount base offline)
                priced_in_words (of_Z 450000) "dollars"
                (reachable_mount base no_key offline) eq_refl
                initial_passes eq_refl eq_refl priced_in_words_has_price)
      as (c1 & c2 & D1 & D2 & _ & _ & _ & _ & _ & _ & W).
    exists c1, c2. split; [exact D1|]. split; [exact D2|].
    exact (W eq_refl).
Defined.

Lemma http_failure_reaches_the_panel_witness :
  exists c1 c2,
    dispatch base no_key (Submit (server server_error)) (mount base offline)
      = Some c1 /\
    dispatch base no_key (PredictSettled 0) c1 = Some c2 /\
    errorPanel (render (st c2)) =
      Some "Prediction failed (HTTP 500): Internal Server Error" /\
    resultPanel (render (st c2)) = None /\
    submitDisabled (render (st c2)) = false /\
    inflight c2 = [].
Proof.
  apply (EndToEndProps.http_failure_reaches_the_panel base no_key
           (server server_error) (mount base offline) server_error).
  - apply reachable_mount.
  - reflexivity.
  - exact initial_passes.
  - reflexivity.
  - reflexivity.
Defined.

End MoreScenarios.
